(** * SoulMate Connect: matching core

    A shallow embedding of the decision logic of the backend:
    - the match router: the like / pass / super-like endpoint
      [router.post('/action')],
    - [services/MatchingService.js]: the blended compatibility score and
      discovery,
    - [services/AIService.js]: the detailed personality and lifestyle scorers,
    - [middleware/auth.js]: the sliding-window rate limiter,
    - [utils/validation.js]: the trait profile validator.

    JavaScript numbers are modelled as exact rationals together with [NaN]:
    every score below is built from profile values by [+], [-], [*], a
    division by a non-zero constant, [Math.abs] and [Math.max], and
    comparisons of doubles are exact.  Rounding of the products with the
    decimal weights is not modelled: the statements on computed scores are
    statements on their exact values, and none rests on a comparison of a
    computed score with a threshold.  Where a sample value of the blend is
    compared with a band, the same value is computed on IEEE 754 doubles
    ([Double.blend]). *)

From Stdlib Require Import QArith Qabs Qminmax Qround Lqa ZArith Lia.
From Stdlib Require Import PrimFloat.
From stdpp Require Import gmap strings list fin_maps sorting.

(** ** JavaScript values *)

Module Js.

(** A number: a finite value or [NaN]. *)
Inductive num : Type :=
| Num (q : Q)
| NaN.

Definition lift2 (f : Q -> Q -> Q) (a b : num) : num :=
  match a, b with
  | Num x, Num y => Num (f x y)
  | _, _ => NaN
  end.

Definition add : num -> num -> num := lift2 Qplus.
Definition sub : num -> num -> num := lift2 Qminus.
Definition mul : num -> num -> num := lift2 Qmult.

(** [a / b].  Every divisor in the code below is a non-zero constant or is
    guarded by a test; a zero divisor is sent to [NaN]. *)
Definition div (a b : num) : num :=
  match a, b with
  | Num x, Num y => if Qeq_bool y 0 then NaN else Num (x / y)
  | _, _ => NaN
  end.

(** [Math.abs] and [Math.max]: both propagate [NaN]. *)
Definition abs (a : num) : num :=
  match a with
  | Num x => Num (Qabs x)
  | NaN => NaN
  end.

Definition max : num -> num -> num := lift2 Qmax.

(** [a >= b] and [a > b]: false as soon as an operand is [NaN]. *)
Definition ge (a b : num) : bool :=
  match a, b with
  | Num x, Num y => Qle_bool y x
  | _, _ => false
  end.

Definition gt (a b : num) : bool :=
  match a, b with
  | Num x, Num y => negb (Qle_bool x y)
  | _, _ => false
  end.

Definition lt (a b : num) : bool := gt b a.

(** A property of an object that holds a number, or is absent
    ([undefined]). *)
Definition toNumber (v : option Q) : num :=
  match v with
  | Some q => Num q
  | None => NaN
  end.

(** Truthiness of such a property: [undefined] and [0] are falsy. *)
Definition truthy (v : option Q) : bool :=
  match v with
  | Some q => negb (Qeq_bool q 0)
  | None => false
  end.

(** [v || d] for a numeric default [d]. *)
Definition orElse (v : option Q) (d : Q) : num :=
  if truthy v then toNumber v else Num d.


(** Exceptions and completions of a call. *)
Inductive error : Type :=
| TypeError.

Inductive completion (A : Type) : Type :=
| Ok (a : A)
| Throw (e : error).

Arguments Ok {A} a.
Arguments Throw {A} e.

Definition bind {A B : Type} (c : completion A) (k : A -> completion B)
  : completion B :=
  match c with
  | Ok a => k a
  | Throw e => Throw e
  end.

(** A call [f(a, b)] of a property [f] of an object: calling a property
    that is [undefined] throws. *)
Definition call {A B C : Type} (f : option (A -> B -> C)) (a : A) (b : B)
  : completion C :=
  match f with
  | Some g => Ok (g a b)
  | None => Throw TypeError
  end.

(** An operand of [>=] that is a number or a plain object; the object
    converts to [NaN]. *)
Inductive value (O : Type) : Type :=
| Number (n : num)
| Object (o : O).

Arguments Number {O} n.
Arguments Object {O} o.

Definition valueToNumber {O : Type} (v : value O) : num :=
  match v with
  | Number n => n
  | Object _ => NaN
  end.

(** [a.slice(0, n)] for an integer [n]: a negative [n] counts from the end. *)
Definition slice0 {A : Type} (l : list A) (n : Z) : list A :=
  if (n <? 0)%Z
  then take (Z.to_nat (Z.max (Z.of_nat (length l) + n) 0)) l
  else take (Z.to_nat n) l.

End Js.

#[global] Instance completion_ret : MRet Js.completion := @Js.Ok.
#[global] Instance completion_bind : MBind Js.completion :=
  fun A B k c => Js.bind c k.

(** ** Data model *)

(** A trait profile and the numeric lifestyle factors are plain objects from
    property names to numbers: [gmap string Q]. *)

Record Lifestyle : Type := mkLifestyle {
  ls_smoking : bool;            (* truthiness of [lifestyle.smoking] *)
  ls_factors : gmap string Q    (* exerciseFrequency, drinkingHabits, ... *)
}.

(** Truthiness of the three flags of [user.dealBreakers]. *)
Record DealBreakers : Type := mkDealBreakers {
  db_smoking : bool;
  db_hasKids : bool;
  db_pets : bool
}.

Record Preferences : Type := mkPreferences {
  maxDistance : Q
}.

Record User : Type := mkUser {
  user_id : string;
  isActive : bool;
  location : Q * Q;
  preferences : option Preferences;
  personalityTraits : option (gmap string Q);
  lifestyle : option Lifestyle;
  dealBreakers : option DealBreakers;
  hasKids : bool;
  hasPets : bool;
  subscriptionTier : string
}.

(** ** utils/validation.js *)

Module Validation.

Definition requiredTraits : list string :=
  ["openness"; "conscientiousness"; "extraversion"; "agreeableness";
   "neuroticism"]%string.

(** [validatePersonalityTraits(traits)]. *)
Definition validatePersonalityTraits (traits : gmap string Q) : bool :=
  forallb
    (fun trait =>
       negb (negb (Js.truthy (traits !! trait))
             || Js.lt (Js.toNumber (traits !! trait)) (Js.Num 0)
             || Js.gt (Js.toNumber (traits !! trait)) (Js.Num 100)))
    requiredTraits.

End Validation.

(** ** services/MatchingService.js *)

Module MatchingService.

(** The object a call of [calculateCompatibility] resolves to. *)
Record Compatibility : Type := mkCompatibility {
  compatibility : Js.num;
  aiInsight : option string
}.

(** An entry of the array [findMatches] resolves to. *)
Record MatchEntry : Type := mkMatchEntry {
  me_user : User;
  me_compatibility : Js.num;
  me_aiInsight : option string
}.

(** The query [findMatches] sends to the user collection. *)
Record Query : Type := mkQuery {
  q_ne_id : string;
  q_isActive : bool;
  q_near : Q * Q;
  q_maxDistance : Q
}.

Definition weights : list (string * Q) :=
  [("openness", 0.15); ("conscientiousness", 0.20); ("extraversion", 0.18);
   ("agreeableness", 0.22); ("neuroticism", 0.15);
   ("emotionalIntelligence", 0.10)]%string%Q.

(** One turn of the loop of [analyzePersonalityTraits]. *)
Definition traitStep (traits1 traits2 : gmap string Q) (score : Js.num)
    (tw : string * Q) : Js.num :=
  let diff := Js.abs (Js.sub (Js.toNumber (traits1 !! tw.1))
                             (Js.toNumber (traits2 !! tw.1))) in
  Js.add score
    (Js.mul (Js.sub (Js.Num 1) (Js.div diff (Js.Num 100))) (Js.Num tw.2)).

(** [analyzePersonalityTraits(traits1, traits2)]: reading a property of an
    absent ([undefined]) profile throws. *)
Definition analyzePersonalityTraits (traits1 traits2 : option (gmap string Q))
  : Js.completion Js.num :=
  match traits1, traits2 with
  | Some t1, Some t2 =>
      let score := fold_left (traitStep t1 t2) weights (Js.Num 0) in
      Js.Ok (Js.max (Js.Num 0) (Js.mul score (Js.Num 100)))
  | _, _ => Js.Throw Js.TypeError
  end.

(** [checkDealBreakers(user1, user2)]. *)
Definition checkDealBreakers (user1 user2 : User) : Js.num :=
  let dealBreakers1 := default (mkDealBreakers false false false)
                               (dealBreakers user1) in
  let dealBreakers2 := default (mkDealBreakers false false false)
                               (dealBreakers user2) in
  let smokes (u : User) := from_option ls_smoking false (lifestyle u) in
  if db_smoking dealBreakers1 && smokes user2 then Js.Num 0
  else if db_smoking dealBreakers2 && smokes user1 then Js.Num 0
  else if db_hasKids dealBreakers1 && hasKids user2 then Js.Num 0
  else if db_hasKids dealBreakers2 && hasKids user1 then Js.Num 0
  else if db_pets dealBreakers1 && hasPets user2 then Js.Num 0
  else if db_pets dealBreakers2 && hasPets user1 then Js.Num 0
  else Js.Num 100.

(** [this.analyzeLifestyle] and [this.generateMatchAnalysis]: the class
    defines no method of either name, both properties are [undefined]. *)
Definition analyzeLifestyle : option (User -> User -> Js.num) := None.

Definition generateMatchAnalysis : option (string -> string -> string) :=
  None.

(** The blend [personalityScore * 0.6 + lifestyleScore * 0.3 +
    dealBreakerScore * 0.1]. *)
Definition blend (personalityScore lifestyleScore dealBreakerScore : Js.num)
  : Js.num :=
  Js.add (Js.add (Js.mul personalityScore (Js.Num 0.6))
                 (Js.mul lifestyleScore (Js.Num 0.3)))
         (Js.mul dealBreakerScore (Js.Num 0.1)).

Section Service.

(** [this.openai.chat.completions.create] followed by the read of
    [response.choices[0].message.content]: the text, or an exception. *)
Variable chatCompletion :
  option (gmap string Q) -> option (gmap string Q) -> Js.num ->
  Js.completion string.

(** The user collection: [User.findById] and [User.find]. *)
Variable findById : string -> option User.
Variable find : Query -> list User.

(** [getAICompatibilityInsight]: every exception is caught and turned into
    [null]. *)
Definition getAICompatibilityInsight (user1 user2 : User) (score : Js.num)
  : option string :=
  match chatCompletion (personalityTraits user1) (personalityTraits user2)
          score with
  | Js.Ok text => Some text
  | Js.Throw _ => None
  end.

(** [calculateCompatibility(user1, user2)]. *)
Definition calculateCompatibility (user1 user2 : User)
  : Js.completion Compatibility :=
  personalityScore ←
    analyzePersonalityTraits (personalityTraits user1)
                             (personalityTraits user2);
  lifestyleScore ← Js.call analyzeLifestyle user1 user2;
  let dealBreakerScore := checkDealBreakers user1 user2 in
  let compatibility :=
    blend personalityScore lifestyleScore dealBreakerScore in
  if negb (String.eqb (subscriptionTier user1) "free")
  then Js.Ok (mkCompatibility compatibility
                (getAICompatibilityInsight user1 user2 compatibility))
  else Js.Ok (mkCompatibility compatibility None).

(** The comparator [(a, b) => b.compatibility - a.compatibility]. *)
Definition compareFn (a b : MatchEntry) : Js.num :=
  Js.sub (me_compatibility b) (me_compatibility a).

(** [Array.prototype.sort] is stable: an element moves in front of the ones
    before it only where the comparator is positive, and a [NaN] from the
    comparator counts as [0]. *)
Fixpoint insertSorted (x : MatchEntry) (l : list MatchEntry)
  : list MatchEntry :=
  match l with
  | [] => [x]
  | y :: l' =>
      if Js.gt (compareFn y x) (Js.Num 0)
      then x :: y :: l'
      else y :: insertSorted x l'
  end.

Definition sort (l : list MatchEntry) : list MatchEntry :=
  fold_left (fun acc x => insertSorted x acc) l [].

(** The loop of [findMatches] over the candidates, pushing onto [matches]. *)
Fixpoint collect (user : User) (potentialMatches : list User)
    (matches : list MatchEntry) : Js.completion (list MatchEntry) :=
  match potentialMatches with
  | [] => Js.Ok matches
  | potential :: rest =>
      c ← calculateCompatibility user potential;
      if Js.gt (compatibility c) (Js.Num 70)
      then collect user rest
             (matches ++ [mkMatchEntry potential (compatibility c)
                            (aiInsight c)])
      else collect user rest matches
  end.

(** [findMatches(userId, limit = 10)]. *)
Definition findMatches (userId : string) (limit : option Z)
  : Js.completion (list MatchEntry) :=
  let limit := default 10%Z limit in
  match findById userId with
  | None => Js.Throw Js.TypeError
  | Some user =>
      match preferences user with
      | None => Js.Throw Js.TypeError
      | Some prefs =>
          let potentialMatches :=
            find (mkQuery userId true (location user) (maxDistance prefs)) in
          matches ← collect user potentialMatches [];
          Js.Ok (Js.slice0 (sort matches) limit)
      end
  end.

End Service.

End MatchingService.

(** ** The blend on doubles

    The expression of the blend in [calculateCompatibility] on binary64
    numbers, the numbers of the code; the weights are the doubles nearest to
    0.6, 0.3 and 0.1. *)

Module Double.

#[warnings="-inexact-float"]
Definition blend (personalityScore lifestyleScore dealBreakerScore : float)
  : float :=
  (personalityScore * 0.6 + lifestyleScore * 0.3
   + dealBreakerScore * 0.1)%float.

End Double.

(** ** services/AIService.js *)

Module AIService.

Definition weights : list (string * Q) :=
  [("openness", 0.15); ("conscientiousness", 0.20); ("extraversion", 0.18);
   ("agreeableness", 0.25); ("neuroticism", 0.12);
   ("emotionalIntelligence", 0.10)]%string%Q.

(** One turn of the loop of [calculatePersonalityCompatibility]. *)
Definition traitStep (traits1 traits2 : gmap string Q) (totalScore : Js.num)
    (tw : string * Q) : Js.num :=
  let diff := Js.abs (Js.sub (Js.orElse (traits1 !! tw.1) 50)
                             (Js.orElse (traits2 !! tw.1) 50)) in
  let score := Js.max (Js.Num 0)
                 (Js.sub (Js.Num 100) (Js.mul diff (Js.Num 2))) in
  Js.add totalScore (Js.mul score (Js.Num tw.2)).

(** [calculatePersonalityCompatibility(traits1, traits2)]. *)
Definition calculatePersonalityCompatibility
    (traits1 traits2 : option (gmap string Q)) : Js.completion Js.num :=
  match traits1, traits2 with
  | Some t1, Some t2 => Js.Ok (fold_left (traitStep t1 t2) weights (Js.Num 0))
  | _, _ => Js.Throw Js.TypeError
  end.

Definition factors : list string :=
  ["exerciseFrequency"; "drinkingHabits"; "socialLevel"; "sleepSchedule"]%string.

(** The callback of [factors.forEach] in [calculateLifestyleCompatibility],
    on the pair [(compatibilitySum, factorCount)]. *)
Definition factorStep (lifestyle1 lifestyle2 : gmap string Q)
    (acc : Js.num * Z) (factor : string) : Js.num * Z :=
  if Js.truthy (lifestyle1 !! factor) && Js.truthy (lifestyle2 !! factor)
  then
    let diff := Js.abs (Js.sub (Js.toNumber (lifestyle1 !! factor))
                               (Js.toNumber (lifestyle2 !! factor))) in
    (Js.add acc.1
       (Js.max (Js.Num 0) (Js.sub (Js.Num 100) (Js.mul diff (Js.Num 20)))),
     (acc.2 + 1)%Z)
  else acc.

(** [calculateLifestyleCompatibility(lifestyle1, lifestyle2)]. *)
Definition calculateLifestyleCompatibility
    (lifestyle1 lifestyle2 : gmap string Q) : Js.num :=
  let acc := fold_left (factorStep lifestyle1 lifestyle2) factors
               (Js.Num 0, 0%Z) in
  if (0 <? acc.2)%Z then Js.div acc.1 (Js.Num (inject_Z acc.2))
  else Js.Num 75.

End AIService.

(** ** The match router *)

Module MatchRoute.

(** The body field [action]: ['like'], ['pass'] or ['super_like']. *)
Inductive Action : Type :=
| like
| pass
| super_like.

Inductive Status : Type :=
| pending
| mutual
| rejected.

Inductive MatchType : Type :=
| perfect
| excellent
| good
| potential.

#[global] Instance Action_eq_dec : EqDecision Action.
Proof. solve_decision. Defined.

#[global] Instance Status_eq_dec : EqDecision Status.
Proof. solve_decision. Defined.

#[global] Instance MatchType_eq_dec : EqDecision MatchType.
Proof. solve_decision. Defined.

(** A document of the match collection. *)
Record Match : Type := mkMatch {
  match_id : nat;
  user1 : string;
  user2 : string;
  compatibilityScore : Js.value MatchingService.Compatibility;
  matchType : MatchType;
  user1Action : option Action;
  user2Action : option Action;
  status : Status;
  aiAnalysis : option string
}.

(** The band chosen for a new record from [compatibilityScore], the value
    the call of the service resolved to. *)
Definition matchTypeOf
    (compatibilityScore : Js.value MatchingService.Compatibility)
  : MatchType :=
  if Js.ge (Js.valueToNumber compatibilityScore) (Js.Num 90) then perfect
  else if Js.ge (Js.valueToNumber compatibilityScore) (Js.Num 80)
  then excellent
  else if Js.ge (Js.valueToNumber compatibilityScore) (Js.Num 70) then good
  else potential.

(** Modelled from the spec: the schema of [models/Match.js] is not part of
    the sources.  A record starts with both actions unset, in state
    [pending], without enrichment. *)
Definition newMatch (id : nat) (userId targetUserId : string)
    (compatibilityScore : Js.value MatchingService.Compatibility) : Match :=
  mkMatch id userId targetUserId compatibilityScore
    (matchTypeOf compatibilityScore) None None pending None.

(** "Update user action". *)
Definition updateAction (m : Match) (userId : string) (action : Action)
  : Match :=
  if String.eqb (user1 m) userId
  then mkMatch (match_id m) (user1 m) (user2 m) (compatibilityScore m)
         (matchType m) (Some action) (user2Action m) (status m) (aiAnalysis m)
  else mkMatch (match_id m) (user1 m) (user2 m) (compatibilityScore m)
         (matchType m) (user1Action m) (Some action) (status m) (aiAnalysis m).

Definition setStatus (m : Match) (s : Status) : Match :=
  mkMatch (match_id m) (user1 m) (user2 m) (compatibilityScore m)
    (matchType m) (user1Action m) (user2Action m) s (aiAnalysis m).

Definition setAiAnalysis (m : Match) (a : option string) : Match :=
  mkMatch (match_id m) (user1 m) (user2 m) (compatibilityScore m)
    (matchType m) (user1Action m) (user2Action m) (status m) a.

(** "Check for mutual match". *)
Definition checkMutual (m : Match) (action : Action) : Match :=
  if bool_decide (user1Action m = Some like)
     && bool_decide (user2Action m = Some like)
  then setStatus m mutual
  else if bool_decide (action = pass) then setStatus m rejected
  else m.

(** The transition of the record on an action of [userId]. *)
Definition applyAction (m : Match) (userId : string) (action : Action)
  : Match :=
  checkMutual (updateAction m userId action) action.

(** *** The handler against the collection *)

Record Request : Type := mkRequest {
  userId : string;
  targetUserId : string;
  action : Action
}.

Inductive Response : Type :=
| Status400
| Status500
| Json (matched : bool) (matchId : nat).

(** The match collection, with the counter fresh identifiers come from. *)
Record Db : Type := mkDb {
  matches : list Match;
  nextId : nat
}.

Definition isPair (a b : string) (m : Match) : bool :=
  (String.eqb (user1 m) a && String.eqb (user2 m) b)
  || (String.eqb (user1 m) b && String.eqb (user2 m) a).

(** [Match.findOne({ $or: [...] })]. *)
Definition findOne (a b : string) (db : Db) : option Match :=
  List.find (isPair a b) (matches db).

(** [match.save()]: a document of the collection is written back, a new one
    is inserted. *)
Definition save (m : Match) (db : Db) : Db :=
  if existsb (fun d => Nat.eqb (match_id d) (match_id m)) (matches db)
  then mkDb (map (fun d => if Nat.eqb (match_id d) (match_id m) then m else d)
                 (matches db))
            (nextId db)
  else mkDb (matches db ++ [m]) (nextId db).

(** A running handler: the code between two [await] runs without
    interruption, so a handler is at one of its suspension points. *)
Inductive Task : Type :=
| AtStart (req : Request)
| AfterFind (req : Request) (found : option Match)
| AfterSave (req : Request) (m : Match)
| Finished (r : Response).

Section Handler.

(** A service behind [MatchingService.calculateCompatibility(userId,
    targetUserId)]: what the awaited call resolves to, or an exception. *)
Variable calculateCompatibility :
  string -> string -> Js.completion (Js.value MatchingService.Compatibility).

(** [MatchingService.generateMatchAnalysis(userId, targetUserId)]. *)
Variable generateMatchAnalysis : string -> string -> Js.completion string.

(** One resumption of a handler, up to its next [await]. *)
Definition step (t : Task) (db : Db) : Task * Db :=
  match t with
  | AtStart req =>
      if String.eqb (userId req) (targetUserId req)
      then (Finished Status400, db)
      else (AfterFind req (findOne (userId req) (targetUserId req) db), db)
  | AfterFind req found =>
      let created :=
        match found with
        | Some m => Js.Ok (m, db)
        | None =>
            compatibilityScore ←
              calculateCompatibility (userId req) (targetUserId req);
            Js.Ok (newMatch (nextId db) (userId req) (targetUserId req)
                     compatibilityScore,
                   mkDb (matches db) (S (nextId db)))
        end in
      match created with
      | Js.Throw _ => (Finished Status500, db)
      | Js.Ok (m, db) =>
          let m := applyAction m (userId req) (action req) in
          (AfterSave req m, save m db)
      end
  | AfterSave req m =>
      if bool_decide (status m = mutual)
      then
        match generateMatchAnalysis (userId req) (targetUserId req) with
        | Js.Throw _ => (Finished Status500, db)
        | Js.Ok text =>
            let m := setAiAnalysis m (Some text) in
            (Finished (Json true (match_id m)), save m db)
        end
      else (Finished (Json false (match_id m)), db)
  | Finished r => (Finished r, db)
  end.

(** A handler run alone, from the request to the response. *)
Definition handle (req : Request) (db : Db) : Task * Db :=
  let '(t1, db1) := step (AtStart req) db in
  let '(t2, db2) := step t1 db1 in
  step t2 db2.

(** Handlers in flight, resumed in the order of a schedule. *)
Fixpoint run (schedule : list nat) (tasks : list Task) (db : Db)
  : list Task * Db :=
  match schedule with
  | [] => (tasks, db)
  | i :: schedule' =>
      match tasks !! i with
      | None => run schedule' tasks db
      | Some t =>
          let '(t', db') := step t db in
          run schedule' (<[i := t']> tasks) db'
      end
  end.

End Handler.

(** What the method of the class reads of an identifier given in the place
    of a user object: every property of the string is [undefined]. *)
Definition ofId (id : string) : User :=
  mkUser id false (0, 0)%Q None None None None false false "".

(** The two services as the sources have them: the method
    [calculateCompatibility] of the class, given the two identifiers and
    resolving to its result object, and the method [generateMatchAnalysis],
    which the class does not define. *)
Definition scoreOfIds
    (chatCompletion : option (gmap string Q) -> option (gmap string Q) ->
                      Js.num -> Js.completion string)
    (userId targetUserId : string)
  : Js.completion (Js.value MatchingService.Compatibility) :=
  c ← MatchingService.calculateCompatibility chatCompletion
        (ofId userId) (ofId targetUserId);
  Js.Ok (Js.Object c).

Definition analysisOfIds (userId targetUserId : string)
  : Js.completion string :=
  Js.call MatchingService.generateMatchAnalysis userId targetUserId.

(** The route reaches the class through
    [require('../services/MatchingService')].  The object exported next to
    [RevenueService] holds the class under the key [MatchingService], and
    the method is not static: read on what [require] gives, the property
    [calculateCompatibility] is [undefined], and the call of the route
    throws before the method is entered. *)
Definition exportedCalculateCompatibility
  : option (string -> string -> Js.value MatchingService.Compatibility) :=
  None.

Definition scoreOfExport (userId targetUserId : string)
  : Js.completion (Js.value MatchingService.Compatibility) :=
  Js.call exportedCalculateCompatibility userId targetUserId.

End MatchRoute.

(** ** middleware/auth.js *)

Module Auth.

Record Request : Type := mkRequest {
  ip : string;
  user : option string          (* [req.user.id] when [req.user] is set *)
}.

Inductive Outcome : Type :=
| next
| status429 (retryAfter : Z).

(** The key of a request: [req.ip + (req.user ? req.user.id : '')]. *)
Definition keyOf (req : Request) : string :=
  (ip req ++ default "" (user req))%string.

(** The middleware [rateLimiter(maxRequests, windowMs)] returns, run at time
    [now] on the map [requests] of its closure. *)
Definition limiter (maxRequests windowMs : Z)
    (requests : gmap string (list Z)) (req : Request) (now : Z)
  : Outcome * gmap string (list Z) :=
  let key := keyOf req in
  let windowStart := (now - windowMs)%Z in
  let userRequests := default [] (requests !! key) in
  let validRequests :=
    List.filter (fun time => (windowStart <? time)%Z) userRequests in
  if (maxRequests <=? Z.of_nat (length validRequests))%Z
  then (status429 (- ((- windowMs) / 1000))%Z, requests)
  else (next, <[key := validRequests ++ [now]]> requests).

(** [rateLimiter(maxRequests = 100, windowMs = 15 * 60 * 1000)]. *)
Definition rateLimiter (maxRequests windowMs : option Z) :=
  limiter (default 100%Z maxRequests) (default (15 * 60 * 1000)%Z windowMs).

(** The same middleware serving a sequence of timed requests. *)
Fixpoint serve (maxRequests windowMs : Z) (requests : gmap string (list Z))
    (calls : list (Request * Z)) : list Outcome * gmap string (list Z) :=
  match calls with
  | [] => ([], requests)
  | (req, now) :: calls' =>
      let '(o, requests') := limiter maxRequests windowMs requests req now in
      let '(os, requests'') := serve maxRequests windowMs requests' calls' in
      (o :: os, requests'')
  end.

End Auth.

(** ** Vocabulary of the statements *)

Module Vocabulary.
Import MatchingService.

(** A profile is structurally valid when its trait object is there and
    passes [validatePersonalityTraits]. *)
Definition validProfile (u : User) : bool :=
  from_option Validation.validatePersonalityTraits false (personalityTraits u).

(** [a] declares a deal-breaker that the corresponding fact of [b] matches:
    smoking with [lifestyle.smoking], hasKids with [hasKids], pets with
    [hasPets]. *)
Definition vetoes (a b : User) : bool :=
  let d := default (mkDealBreakers false false false) (dealBreakers a) in
  (db_smoking d && from_option ls_smoking false (lifestyle b))
  || (db_hasKids d && hasKids b)
  || (db_pets d && hasPets b).

Definition vetoTriggered (user1 user2 : User) : bool :=
  vetoes user1 user2 || vetoes user2 user1.







(** Number of records of the collection for the unordered pair [a], [b]. *)
Definition pairCount (a b : string) (db : MatchRoute.Db) : nat :=
  length (List.filter (MatchRoute.isPair a b) (MatchRoute.matches db)).

(** A collection as handlers running one after the other leave it:
    identifiers come from the counter, are distinct, and no unordered pair
    has two records. *)
Record Consistent (db : MatchRoute.Db) : Prop := mkConsistent {
  ids_fresh :
    Forall (fun m => (MatchRoute.match_id m < MatchRoute.nextId db)%nat)
      (MatchRoute.matches db);
  ids_distinct : NoDup (MatchRoute.match_id <$> MatchRoute.matches db);
  pairs_unique : forall a b, (pairCount a b db <= 1)%nat
}.

(** A handler in flight holds a record of the collection: one with its
    identifier and its two users is stored. *)
Definition Tracks (db : MatchRoute.Db) (t : MatchRoute.Task) : Prop :=
  let stored (m : MatchRoute.Match) :=
    exists d, d ∈ MatchRoute.matches db /\
              MatchRoute.match_id d = MatchRoute.match_id m /\
              MatchRoute.user1 d = MatchRoute.user1 m /\
              MatchRoute.user2 d = MatchRoute.user2 m in
  match t with
  | MatchRoute.AfterFind _ (Some m) => stored m
  | MatchRoute.AfterSave _ m => stored m
  | _ => True
  end.

End Vocabulary.

(** ** Sample data *)

Module Samples.
Import MatchRoute.

(** The five required traits, without [emotionalIntelligence]. *)
Definition bigFive : gmap string Q :=
  <["openness" := 70%Q]> (<["conscientiousness" := 60%Q]>
  (<["extraversion" := 50%Q]> (<["agreeableness" := 80%Q]>
  (<["neuroticism" := 40%Q]> ∅))))%string.

Definition sixTraits : gmap string Q :=
  <["emotionalIntelligence"%string := 65%Q]> bigFive.

Definition habits : gmap string Q :=
  <["exerciseFrequency" := 3%Q]> (<["drinkingHabits" := 2%Q]>
  (<["socialLevel" := 4%Q]> (<["sleepSchedule" := 1%Q]> ∅)))%string.

(** A user who declares smoking a deal-breaker, and one who smokes; both
    have the same six traits and the same habits. *)
Definition vetoer : User :=
  mkUser "u1" true (0, 0)%Q (Some (mkPreferences 50)) (Some sixTraits)
    (Some (mkLifestyle false habits))
    (Some (mkDealBreakers true false false)) false false "free".

Definition smoker : User :=
  mkUser "u2" true (0, 0)%Q (Some (mkPreferences 50)) (Some sixTraits)
    (Some (mkLifestyle true habits)) None false false "free".

(** A seeker and two candidates with the seeker's traits and no lifestyle
    object. *)
Definition plain (id : string) : User :=
  mkUser id true (0, 0)%Q (Some (mkPreferences 50)) (Some sixTraits)
    None None false false "free".

Definition directory (id : string) : option User :=
  if String.eqb id "0" then Some (plain "0") else None.

Definition pool (q : MatchingService.Query) : list User :=
  [plain "2"; plain "1"].

(** Two submissions for one pair, one from each side. *)
Definition likeAB : Request := mkRequest "A" "B" like.
Definition likeBA : Request := mkRequest "B" "A" like.

(** A super-like of ["A"] for ["B"]. *)
Definition superLikeAB : Request := mkRequest "A" "B" super_like.

Definition emptyDb : Db := mkDb [] 0.

(** A query that finds no candidate. *)
Definition nobody (q : MatchingService.Query) : list User := [].

(** Two retained entries of equal score, identifier ["2"] before ["1"]. *)
Definition second : MatchingService.MatchEntry :=
  MatchingService.mkMatchEntry (plain "2") (Js.Num 80) None.


Definition noCompletion (t1 t2 : option (gmap string Q)) (score : Js.num)
  : Js.completion string :=
  Js.Throw Js.TypeError.

(** A record where the second user has liked and the first has not acted. *)
Definition liked_by_second : Match :=
  mkMatch 0 "A" "B" (Js.Number (Js.Num 95)) perfect None (Some like) pending
    None.

(** A collection that holds this record. *)
Definition oneRecord : Db := mkDb [liked_by_second] 1.

(** A record the first user passed on after the second user had liked. *)
Definition passed_after_like : Match :=
  mkMatch 0 "A" "B" (Js.Number (Js.Num 95)) perfect (Some pass) (Some like)
    rejected None.

End Samples.

(** ** The sliding window over the whole history *)

Module SlidingWindow.
Import Auth.

(** The times at which [key] was admitted, oldest first, in a history of
    admitted requests. *)
Definition timesOf (key : string) (history : list (string * Z)) : list Z :=
  (List.filter (fun kt : string * Z => String.eqb kt.1 key) history).*2.

(** Number of admitted requests of [key] in the window that ends at [now]. *)
Definition inWindow (windowMs : Z) (history : list (string * Z))
    (key : string) (now : Z) : nat :=
  length (List.filter (fun time => (now - windowMs <? time)%Z)
            (timesOf key history)).

(** Decisions of a limiter that forgets nothing: a request is denied when
    [maxRequests] admitted requests of its key are in its window. *)
Fixpoint decisions (maxRequests windowMs : Z) (history : list (string * Z))
    (calls : list (Request * Z)) : list Outcome :=
  match calls with
  | [] => []
  | (req, now) :: calls' =>
      if (maxRequests <=?
          Z.of_nat (inWindow windowMs history (keyOf req) now))%Z
      then status429 (- ((- windowMs) / 1000))%Z
           :: decisions maxRequests windowMs history calls'
      else next
           :: decisions maxRequests windowMs (history ++ [(keyOf req, now)])
                calls'
  end.

(** The map agrees with the history on every window that ends at [tlast] or
    later. *)
Definition agrees (windowMs tlast : Z) (requests : gmap string (list Z))
    (history : list (string * Z)) : Prop :=
  forall key theta, (tlast - windowMs <= theta)%Z ->
    List.filter (fun time => (theta <? time)%Z) (default [] (requests !! key))
    = List.filter (fun time => (theta <? time)%Z) (timesOf key history).

End SlidingWindow.

(** ** Rounding and equality of numbers *)

Module JsMath.

(** [Math.floor] and [Math.round] (halves go up). *)
Definition floor (a : Js.num) : Js.num :=
  match a with
  | Js.Num q => Js.Num (inject_Z (Qfloor q))
  | Js.NaN => Js.NaN
  end.

Definition round (a : Js.num) : Js.num :=
  match a with
  | Js.Num q => Js.Num (inject_Z (Qfloor (q + (1 # 2))%Q))
  | Js.NaN => Js.NaN
  end.

(** The same number: equal as rationals, or both [NaN]. *)
Definition sameNum (a b : Js.num) : Prop :=
  match a, b with
  | Js.Num x, Js.Num y => (x == y)%Q
  | Js.NaN, Js.NaN => True
  | _, _ => False
  end.

(** The same completion: the same number, or an exception on both sides. *)
Definition sameResult (a b : Js.completion Js.num) : Prop :=
  match a, b with
  | Js.Ok x, Js.Ok y => sameNum x y
  | Js.Throw _, Js.Throw _ => True
  | _, _ => False
  end.

End JsMath.

(** ** services/AIService.js: the detailed blend *)

Module AIDetail.

(** The fields of a user the detailed blend reads beside those of [User]. *)
Record Member : Type := mkMember {
  member : User;
  interests : option (list string);
  values : option (list string)
}.

(** [l.includes(x)]. *)
Definition includes (l : list string) (x : string) : bool :=
  bool_decide (x ∈ l).

(** [(part / whole) * 100]. *)
Definition percentage (part whole : nat) : Js.num :=
  Js.mul (Js.div (Js.Num (inject_Z (Z.of_nat part)))
                 (Js.Num (inject_Z (Z.of_nat whole))))
         (Js.Num 100).

(** [calculateSharedInterests(interests1, interests2)]; the size of the
    [Set] of both arrays is the number of distinct elements. *)
Definition calculateSharedInterests (interests1 interests2 : list string)
  : Js.num :=
  if Nat.eqb (length interests1) 0 || Nat.eqb (length interests2) 0
  then Js.Num 50
  else
    let shared := length (List.filter (includes interests2) interests1) in
    let total := length (remove_dups (interests1 ++ interests2)) in
    percentage shared total.

(** [calculateSharedValues(values1, values2)]. *)
Definition calculateSharedValues (values1 values2 : list string) : Js.num :=
  if Nat.eqb (length values1) 0 || Nat.eqb (length values2) 0
  then Js.Num 50
  else
    let shared := length (List.filter (includes values2) values1) in
    let maxValues := Nat.max (length values1) (length values2) in
    percentage shared maxValues.

(** [calculateDetailedCompatibility(user1, user2)]. *)
Definition calculateDetailedCompatibility (user1 user2 : Member)
  : Js.completion Js.num :=
  let personalityWeight := Js.Num 0.4 in
  let interestsWeight := Js.Num 0.2 in
  let lifestyleWeight := Js.Num 0.2 in
  let valuesWeight := Js.Num 0.2 in
  personalityScore ←
    AIService.calculatePersonalityCompatibility
      (personalityTraits (member user1)) (personalityTraits (member user2));
  let interestsScore :=
    calculateSharedInterests (default [] (interests user1))
                             (default [] (interests user2)) in
  let lifestyleScore :=
    AIService.calculateLifestyleCompatibility
      (from_option ls_factors ∅ (lifestyle (member user1)))
      (from_option ls_factors ∅ (lifestyle (member user2))) in
  let valuesScore :=
    calculateSharedValues (default [] (values user1))
                          (default [] (values user2)) in
  Js.Ok (JsMath.round
           (Js.add (Js.add (Js.add (Js.mul personalityScore personalityWeight)
                                   (Js.mul interestsScore interestsWeight))
                           (Js.mul lifestyleScore lifestyleWeight))
                   (Js.mul valuesScore valuesWeight))).

End AIDetail.

(** ** utils/validation.js: passwords, ages and profile data *)

Module ProfileValidation.

(** Where the length or the characters of a string matter, the string is
    the list of its UTF-16 code units. *)

(** [/[A-Z]/], [/[a-z]/], [/\d/] and [/[!@#$%^&*]/] tested on a string. *)
Definition hasUpperCase (s : list N) : bool :=
  existsb (fun c => (65 <=? c)%N && (c <=? 90)%N) s.

Definition hasLowerCase (s : list N) : bool :=
  existsb (fun c => (97 <=? c)%N && (c <=? 122)%N) s.

Definition hasNumbers (s : list N) : bool :=
  existsb (fun c => (48 <=? c)%N && (c <=? 57)%N) s.

Definition hasSpecialChar (s : list N) : bool :=
  existsb (fun c => bool_decide (c ∈ [33; 64; 35; 36; 37; 94; 38; 42]%N)) s.

Record Report : Type := mkReport {
  isValid : bool;
  errors : list string
}.

(** [cond && message], kept by [.filter(Boolean)] when [cond] holds. *)
Definition message (cond : bool) (text : string) : list string :=
  if cond then [text] else [].

(** [validatePassword(password)]. *)
Definition validatePassword (password : list N) : Report :=
  let minLength := 8%nat in
  mkReport
    (Nat.leb minLength (length password) && hasUpperCase password
     && hasLowerCase password && hasNumbers password)
    (message (Nat.ltb (length password) minLength)
       "Minimum 8 characters required"
     ++ message (negb (hasUpperCase password)) "Must contain uppercase letter"
     ++ message (negb (hasLowerCase password)) "Must contain lowercase letter"
     ++ message (negb (hasNumbers password)) "Must contain number"
     ++ message (negb (hasSpecialChar password))
          "Special character recommended").

(** [365.25 * 24 * 60 * 60 * 1000]. *)
Definition yearMs : Q := (365.25 * 24 * 60 * 60 * 1000)%Q.

(** The age computed at time [now] (the time value of [new Date()]) from the
    time value of [new Date(birthDate)], absent for an invalid date. *)
Definition ageAt (now : Z) (birthDate : option Z) : Js.num :=
  JsMath.floor
    (Js.div (Js.sub (Js.Num (inject_Z now))
                    (Js.toNumber (inject_Z <$> birthDate)))
            (Js.Num yearMs)).

(** [validateAge(birthDate)]. *)
Definition validateAge (now : Z) (birthDate : option Z) : bool :=
  let age := ageAt now birthDate in
  Js.ge age (Js.Num 18) && Js.ge (Js.Num 100) age.

Record ProfileData : Type := mkProfileData {
  firstName : option (list N);
  lastName : option (list N);
  email : option (list N);
  birthDate : option Z;
  pd_personalityTraits : option (gmap string Q)
}.

(** [!name || name.length < 2]. *)
Definition tooShort (name : option (list N)) : bool :=
  match name with
  | None => true
  | Some s => Nat.ltb (length s) 2
  end.

Section Validator.

(** [validator.isEmail], of the [validator] package. *)
Variable isEmail : option (list N) -> Js.completion bool.

(** [validateProfileData(data)], called at time [now]. *)
Definition validateProfileData (now : Z) (data : ProfileData)
  : Js.completion Report :=
  let errors := [] in
  let errors := errors ++ message (tooShort (firstName data))
                            "First name must be at least 2 characters" in
  let errors := errors ++ message (tooShort (lastName data))
                            "Last name must be at least 2 characters" in
  okEmail ← isEmail (email data);
  let errors := errors ++ message (negb okEmail)
                            "Valid email address required" in
  let errors := errors ++ message (negb (validateAge now (birthDate data)))
                            "Must be between 18 and 100 years old" in
  match pd_personalityTraits data with
  | None => Js.Throw Js.TypeError
  | Some traits =>
      let errors :=
        errors ++ message (negb (Validation.validatePersonalityTraits traits))
                    "Complete personality assessment required" in
      Js.Ok (mkReport (Nat.eqb (length errors) 0) errors)
  end.

End Validator.

(** An applicant of 25 years without a trait object, and an e-mail check
    that accepts everything. *)
Definition applicant : ProfileData :=
  mkProfileData (Some [65; 110; 110]%N) (Some [76; 101; 101]%N)
    (Some [97; 64; 98; 46; 99]%N) (Some 1000000000000%Z) None.

Definition anyEmail (email : option (list N)) : Js.completion bool :=
  Js.Ok true.

End ProfileValidation.

(** * Properties *)

(** ** Numbers *)

Module JsFacts.

Lemma Qle_bool_reflect (x y : Q) : reflect (x <= y)%Q (Qle_bool x y).
Proof.
  destruct (Qle_bool x y) eqn:E; constructor.
  - by apply Qle_bool_iff.
  - intros H. apply Qle_bool_iff in H. congruence.
Qed.

Lemma ge_Num (x y : Q) : Js.ge (Js.Num x) (Js.Num y) = true <-> (y <= x)%Q.
Proof. simpl. apply Qle_bool_iff. Qed.



End JsFacts.

(** ** Lists *)

Module ListFacts.

Lemma filter_none {A : Type} (f : A -> bool) (l : list A) :
  Forall (fun a => f a = false) l -> List.filter f l = [].
Proof.
  induction 1 as [|a l Ha _ IH]; [done|]. cbn [List.filter]. by rewrite Ha.
Qed.

End ListFacts.

(** ** The band of a new record *)

Module BandFacts.
Import MatchRoute.

(** On a number [q] the ternary gives [perfect] iff [q >= 90], [excellent]
    iff [80 <= q < 90], [good] iff [70 <= q < 80] and [potential] iff
    [q < 70]. *)
Lemma matchTypeOf_number (q : Q) :
  (matchTypeOf (Js.Number (Js.Num q)) = perfect <-> (90 <= q)%Q) /\
  (matchTypeOf (Js.Number (Js.Num q)) = excellent <-> (80 <= q < 90)%Q) /\
  (matchTypeOf (Js.Number (Js.Num q)) = good <-> (70 <= q < 80)%Q) /\
  (matchTypeOf (Js.Number (Js.Num q)) = potential <-> (q < 70)%Q).
Proof.
  unfold matchTypeOf. simpl.
  destruct (JsFacts.Qle_bool_reflect 90 q),
           (JsFacts.Qle_bool_reflect 80 q),
           (JsFacts.Qle_bool_reflect 70 q);
    repeat split; intros; try done; try lra.
Qed.

(** The boundaries listed with the bands, on numbers. *)
Example matchTypeOf_boundaries :
  map (fun q => matchTypeOf (Js.Number (Js.Num q)))
    [90; 89.999; 80; 79.999; 70; 69.999]%Q
  = [perfect; excellent; excellent; good; good; potential].
Proof. reflexivity. Qed.

(** The result object of the service is in the last band whatever score it
    holds: no comparison of an object with a number holds. *)
Lemma matchTypeOf_object (c : MatchingService.Compatibility) :
  matchTypeOf (Js.Object c) = potential.
Proof. reflexivity. Qed.

End BandFacts.

(** ** The match state machine *)

Module StateMachineFacts.
Import MatchRoute Samples.

(** The state after an action, in one equation. *)
Lemma applyAction_status (m : Match) (u : string) (a : Action) :
  status (applyAction m u a) =
  let m' := updateAction m u a in
  if bool_decide (user1Action m' = Some like)
     && bool_decide (user2Action m' = Some like)
  then mutual
  else if bool_decide (a = pass) then rejected else status m.
Proof.
  unfold applyAction, checkMutual. cbv zeta.
  assert (Hs : status (updateAction m u a) = status m).
  { unfold updateAction. by destruct (String.eqb (user1 m) u). }
  destruct (bool_decide (user1Action (updateAction m u a) = Some like)
            && bool_decide (user2Action (updateAction m u a) = Some like));
    [done|].
  by destruct (bool_decide (a = pass)).
Qed.

Lemma applyAction_actions (m : Match) (u : string) (a : Action) :
  user1Action (applyAction m u a) = user1Action (updateAction m u a) /\
  user2Action (applyAction m u a) = user2Action (updateAction m u a).
Proof.
  unfold applyAction, checkMutual.
  destruct (bool_decide (user1Action (updateAction m u a) = Some like)
            && bool_decide (user2Action (updateAction m u a) = Some like));
    [done|].
  by destruct (bool_decide (a = pass)).
Qed.

(** Two likes give [mutual], whatever the state was. *)
Lemma applyAction_like_like (m : Match) (u : string) (a : Action) :
  user1Action (applyAction m u a) = Some like ->
  user2Action (applyAction m u a) = Some like ->
  status (applyAction m u a) = mutual.
Proof.
  destruct (applyAction_actions m u a) as [-> ->]. intros H1 H2.
  rewrite applyAction_status. cbv zeta.
  by rewrite !bool_decide_eq_true_2 by done.
Qed.

(** C2. A [super_like] of the first user on a record the second user has
    liked: both stored actions are a like or a super-like, and the state is
    still [pending], not [mutual]. *)
Theorem super_like_and_like_stay_pending :
  let m := applyAction liked_by_second "A" super_like in
  user1Action m = Some super_like /\ user2Action m = Some like /\
  status m = pending.
Proof. done. Qed.

(** Two super-likes do not reach [mutual] either. *)
Example super_like_twice_stay_pending :
  let m := applyAction (applyAction liked_by_second "B" super_like)
             "A" super_like in
  user1Action m = Some super_like /\ user2Action m = Some super_like /\
  status m = pending.
Proof. done. Qed.

(** [mutual] is reached by an action exactly when both stored actions are
    [like]; on other actions but [pass] the state is kept. *)
Lemma applyAction_mutual_iff (m : Match) (u : string) (a : Action) :
  status m <> mutual ->
  (status (applyAction m u a) = mutual <->
   user1Action (applyAction m u a) = Some like /\
   user2Action (applyAction m u a) = Some like).
Proof.
  intros Hm. destruct (applyAction_actions m u a) as [-> ->].
  rewrite applyAction_status. cbv zeta.
  destruct (decide (user1Action (updateAction m u a) = Some like)) as [H1|H1],
           (decide (user2Action (updateAction m u a) = Some like)) as [H2|H2].
  - rewrite !bool_decide_eq_true_2 by done. tauto.
  - rewrite (bool_decide_eq_false_2 _ H2), andb_false_r.
    destruct (bool_decide (a = pass)); intuition congruence.
  - rewrite (bool_decide_eq_false_2 _ H1). simpl.
    destruct (bool_decide (a = pass)); intuition congruence.
  - rewrite (bool_decide_eq_false_2 _ H1). simpl.
    destruct (bool_decide (a = pass)); intuition congruence.
Qed.

(** C3, as stated, fails: a [rejected] record turns [mutual] when the side
    that passed sends a like and the other side had liked. *)
Lemma rejected_then_like_is_mutual :
  status passed_after_like = rejected /\
  status (applyAction passed_after_like "A" like) = mutual.
Proof. done. Qed.

(** C3, amended. From [rejected] no action leads to [pending]; the state
    becomes [mutual] exactly when, once the action is stored, both stored
    actions are [like], and is [rejected] otherwise. *)
Theorem rejected_after_action (m : Match) (u : string) (a : Action) :
  status m = rejected ->
  status (applyAction m u a) <> pending /\
  (status (applyAction m u a) = mutual <->
   user1Action (applyAction m u a) = Some like /\
   user2Action (applyAction m u a) = Some like) /\
  (status (applyAction m u a) <> mutual ->
   status (applyAction m u a) = rejected).
Proof.
  intros Hr. split_and!.
  - rewrite applyAction_status. cbv zeta. rewrite Hr.
    by repeat case_match.
  - apply applyAction_mutual_iff. by rewrite Hr.
  - rewrite applyAction_status. cbv zeta. rewrite Hr.
    by repeat case_match.
Qed.

Lemma rejected_after_action_witness :
  status passed_after_like = rejected /\
  status (applyAction passed_after_like "B" super_like) = rejected.
Proof.
  split; [done|].
  apply (rejected_after_action passed_after_like "B" super_like); done.
Defined.

(** A like from the side that passed keeps the record [rejected] as long as
    the other side has not liked. *)
Lemma rejected_like_other_not_like (m : Match) :
  status m = rejected -> user2Action m <> Some like ->
  status (applyAction m (user1 m) like) = rejected.
Proof.
  intros Hr H2. rewrite applyAction_status. cbv zeta.
  assert (user2Action (updateAction m (user1 m) like) = user2Action m) as ->.
  { unfold updateAction. by rewrite String.eqb_refl. }
  by rewrite (bool_decide_eq_false_2 _ H2), andb_false_r.
Qed.

(** Two likes on a fresh record reach [mutual] in either order. *)
Lemma like_like_commutes (id : nat) (a b : string)
    (score : Js.value MatchingService.Compatibility) :
  a <> b ->
  status (applyAction (applyAction (newMatch id a b score) a like) b like)
    = mutual /\
  status (applyAction (applyAction (newMatch id a b score) b like) a like)
    = mutual.
Proof.
  intros Hab. unfold applyAction, updateAction, checkMutual. simpl.
  rewrite String.eqb_refl. simpl.
  destruct (String.eqb_spec a b) as [|_]; [done|]. simpl.
  rewrite String.eqb_refl. simpl.
  destruct (String.eqb_spec a b) as [|_]; [done|]. done.
Qed.

End StateMachineFacts.

(** ** The sliding-window rate limiter *)

Module RateLimiterFacts.
Import Auth.

Local Open Scope Z_scope.

(** A denied request leaves the map as it was. *)
Lemma limiter_denied_keeps (maxRequests windowMs : Z)
    (requests : gmap string (list Z)) (req : Request) (now retry : Z) :
  (limiter maxRequests windowMs requests req now).1 = status429 retry ->
  (limiter maxRequests windowMs requests req now).2 = requests.
Proof.
  unfold limiter. cbv zeta.
  by destruct (maxRequests <=? _).
Qed.

(** A request touches the entry of its own key only. *)
Lemma limiter_other_key (maxRequests windowMs : Z)
    (requests : gmap string (list Z)) (req : Request) (now : Z)
    (key : string) :
  key <> keyOf req ->
  (limiter maxRequests windowMs requests req now).2 !! key = requests !! key.
Proof.
  intros Hk. unfold limiter. cbv zeta.
  destruct (maxRequests <=? _); simpl; [done|].
  by rewrite lookup_insert_ne.
Qed.

(** An admitted request is appended to the timestamps still in the window. *)
Lemma limiter_next_records (maxRequests windowMs : Z)
    (requests : gmap string (list Z)) (req : Request) (now : Z) :
  (limiter maxRequests windowMs requests req now).1 = next ->
  (limiter maxRequests windowMs requests req now).2 !! keyOf req =
  Some (List.filter (fun time => now - windowMs <? time)
          (default [] (requests !! keyOf req)) ++ [now]).
Proof.
  unfold limiter. cbv zeta.
  destruct (maxRequests <=? _); simpl; [done|].
  intros _. by rewrite lookup_insert_eq.
Qed.

(** The decision on a key whose entry is known. *)
Lemma limiter_on_entry (maxRequests windowMs : Z)
    (base : gmap string (list Z)) (l : list Z) (req : Request) (now : Z) :
  limiter maxRequests windowMs (<[keyOf req := l]> base) req now =
  let valid := List.filter (fun time => now - windowMs <? time) l in
  if maxRequests <=? Z.of_nat (length valid)
  then (status429 (- ((- windowMs) / 1000)), <[keyOf req := l]> base)
  else (next, <[keyOf req := valid ++ [now]]> base).
Proof.
  unfold limiter. cbv zeta. rewrite lookup_insert_eq. simpl.
  destruct (maxRequests <=? _); [done|].
  by rewrite insert_insert_eq.
Qed.

(** The first request of a key is admitted when the limit is positive. *)
Lemma limiter_first (maxRequests windowMs : Z)
    (requests : gmap string (list Z)) (req : Request) (now : Z) :
  0 < maxRequests -> requests !! keyOf req = None ->
  limiter maxRequests windowMs requests req now =
  (next, <[keyOf req := [now]]> requests).
Proof.
  intros Hpos Hfresh. unfold limiter. cbv zeta. rewrite Hfresh. simpl.
  change (Z.of_nat 0) with 0.
  destruct (Z.leb_spec maxRequests 0); [lia | done].
Qed.

Ltac window_tests :=
  repeat match goal with
    | |- context [?a <? ?b] =>
        destruct (Z.ltb_spec a b); try lia; simpl
    end.

(** C7. With [maxRequests = 3] and [windowMs = 1000], four requests of one
    key at times [t1 <= t2 <= t3 <= t4 < t1 + 1000] are decided admitted,
    admitted, admitted (the three timestamps being recorded), denied; a
    request of the key at a time [t5] when the recorded timestamps have
    left the window, [t3 + 1000 <= t5], is admitted again. *)
Theorem rateLimiter_three_per_second
    (requests : gmap string (list Z)) (req : Request)
    (t1 t2 t3 t4 t5 : Z) :
  requests !! keyOf req = None ->
  t1 <= t2 <= t3 -> t3 <= t4 -> t4 < t1 + 1000 -> t3 + 1000 <= t5 ->
  serve 3 1000 requests [(req, t1); (req, t2); (req, t3)]
    = ([next; next; next], <[keyOf req := [t1; t2; t3]]> requests) /\
  serve 3 1000 requests [(req, t1); (req, t2); (req, t3); (req, t4)]
    = ([next; next; next; status429 1],
       <[keyOf req := [t1; t2; t3]]> requests) /\
  serve 3 1000 requests
    [(req, t1); (req, t2); (req, t3); (req, t4); (req, t5)]
    = ([next; next; next; status429 1; next],
       <[keyOf req := [t5]]> requests).
Proof.
  intros Hfresh H12 H34 Hin Hout.
  assert (S1 : limiter 3 1000 requests req t1
               = (next, <[keyOf req := [t1]]> requests)).
  { by apply limiter_first. }
  assert (S2 : limiter 3 1000 (<[keyOf req := [t1]]> requests) req t2
               = (next, <[keyOf req := [t1; t2]]> requests)).
  { rewrite limiter_on_entry. simpl. by window_tests. }
  assert (S3 : limiter 3 1000 (<[keyOf req := [t1; t2]]> requests) req t3
               = (next, <[keyOf req := [t1; t2; t3]]> requests)).
  { rewrite limiter_on_entry. simpl. by window_tests. }
  assert (S4 : limiter 3 1000 (<[keyOf req := [t1; t2; t3]]> requests) req t4
               = (status429 1, <[keyOf req := [t1; t2; t3]]> requests)).
  { rewrite limiter_on_entry. simpl. by window_tests. }
  assert (S5 : limiter 3 1000 (<[keyOf req := [t1; t2; t3]]> requests) req t5
               = (next, <[keyOf req := [t5]]> requests)).
  { rewrite limiter_on_entry. simpl. by window_tests. }
  unfold serve. by rewrite S1, S2, S3, S4, S5.
Qed.

Lemma rateLimiter_three_per_second_witness :
  serve 3 1000 ∅
    [(mkRequest "10.0.0.1" (Some "u1"), 0);
     (mkRequest "10.0.0.1" (Some "u1"), 10);
     (mkRequest "10.0.0.1" (Some "u1"), 500);
     (mkRequest "10.0.0.1" (Some "u1"), 999);
     (mkRequest "10.0.0.1" (Some "u1"), 1500)]
  = ([next; next; next; status429 1; next],
     <["10.0.0.1u1"%string := [1500]]> ∅).
Proof.
  destruct (rateLimiter_three_per_second ∅
              (mkRequest "10.0.0.1" (Some "u1")) 0 10 500 999 1500)
    as (_ & _ & H); [done | lia | lia | lia | lia |].
  exact H.
Defined.

(** The window slides: a fourth request exactly [windowMs] after the first is
    admitted, the first timestamp having just left the window. *)
Example rateLimiter_boundary :
  (serve 3 1000 ∅
     [(mkRequest "10.0.0.1" None, 0); (mkRequest "10.0.0.1" None, 1);
      (mkRequest "10.0.0.1" None, 2); (mkRequest "10.0.0.1" None, 1000)]).1
  = [next; next; next; next].
Proof. reflexivity. Qed.

(** Without arguments the limiter admits 100 requests per 15 minutes. *)
Example rateLimiter_defaults (requests : gmap string (list Z))
    (req : Request) (now : Z) :
  rateLimiter None None requests req now = limiter 100 900000 requests req now.
Proof. reflexivity. Qed.

End RateLimiterFacts.

(** ** Trait scoring *)

Module TraitFacts.
Import Samples.

Local Open Scope Q_scope.

Lemma orElse_finite (v : option Q) (d : Q) :
  exists q, Js.orElse v d = Js.Num q.
Proof.
  unfold Js.orElse. destruct v as [q|]; simpl; [|by eexists].
  destruct (Qeq_bool q 0); simpl; by eexists.
Qed.

(** Once the running score is [NaN] it stays [NaN]. *)
Lemma analyze_NaN_absorbs (t1 t2 : gmap string Q) (l : list (string * Q)) :
  fold_left (MatchingService.traitStep t1 t2) l Js.NaN = Js.NaN.
Proof. induction l as [|tw l IH]; simpl; done. Qed.

(** A weighted trait that is absent from a profile makes the score [NaN]. *)
Lemma analyze_missing (t1 t2 : gmap string Q) (l : list (string * Q))
    (acc : Js.num) (trait : string) :
  trait ∈ l.*1 -> t1 !! trait = None \/ t2 !! trait = None ->
  fold_left (MatchingService.traitStep t1 t2) l acc = Js.NaN.
Proof.
  intros Hin Hmiss. revert acc.
  induction l as [|[tr w] l IH]; intros acc; simpl in *.
  - by apply elem_of_nil in Hin.
  - apply elem_of_cons in Hin as [->|Hin].
    + assert (MatchingService.traitStep t1 t2 acc (tr, w) = Js.NaN) as ->.
      { unfold MatchingService.traitStep. simpl.
        destruct Hmiss as [-> | ->]; simpl.
        - by destruct acc.
        - destruct (t1 !! tr), acc; done. }
      apply analyze_NaN_absorbs.
    + by apply IH.
Qed.

Theorem analyzePersonalityTraits_missing (t1 t2 : gmap string Q)
    (trait : string) :
  trait ∈ MatchingService.weights.*1 ->
  t1 !! trait = None \/ t2 !! trait = None ->
  MatchingService.analyzePersonalityTraits (Some t1) (Some t2)
  = Js.Ok Js.NaN.
Proof.
  intros Hin Hmiss. unfold MatchingService.analyzePersonalityTraits.
  by rewrite (analyze_missing t1 t2 _ _ trait Hin Hmiss).
Qed.

(** C6. Two profiles that pass the validator and omit the optional
    [emotionalIntelligence]: [analyzePersonalityTraits] answers [NaN],
    while [calculatePersonalityCompatibility] reads the absent value as 50
    and answers 100. *)
Theorem analyzePersonalityTraits_optional_trait_NaN :
  Validation.validatePersonalityTraits bigFive = true /\
  bigFive !! "emotionalIntelligence"%string = None /\
  MatchingService.analyzePersonalityTraits (Some bigFive) (Some bigFive)
    = Js.Ok Js.NaN /\
  exists q, AIService.calculatePersonalityCompatibility (Some bigFive)
              (Some bigFive) = Js.Ok (Js.Num q) /\ q == 100.
Proof.
  split_and!; [by vm_compute | by vm_compute | by vm_compute |].
  eexists. split; [by vm_compute | by vm_compute].
Qed.

(** Sum of the weights of a table. *)
Lemma weights_sum_to_one :
  foldr Qplus 0 MatchingService.weights.*2 == 1 /\
  foldr Qplus 0 AIService.weights.*2 == 1.
Proof. split; reflexivity. Qed.

Lemma ai_step_range (t1 t2 : gmap string Q) (a : Q) (tw : string * Q) :
  0 <= tw.2 ->
  exists q, AIService.traitStep t1 t2 (Js.Num a) tw = Js.Num q /\
            a <= q <= a + 100 * tw.2.
Proof.
  intros Hw. unfold AIService.traitStep.
  destruct (orElse_finite (t1 !! tw.1) 50) as [x ->].
  destruct (orElse_finite (t2 !! tw.1) 50) as [y ->].
  cbn [Js.abs Js.sub Js.mul Js.max Js.add Js.lift2].
  eexists. split; [reflexivity|].
  pose proof (Qabs_nonneg (x - y)) as Habs.
  pose proof (Q.le_max_l 0 (100 - Qabs (x - y) * 2)) as Hlo.
  assert (Hhi : Qmax 0 (100 - Qabs (x - y) * 2) <= 100).
  { apply Q.max_lub; lra. }
  set (m := Qmax 0 (100 - Qabs (x - y) * 2)) in *. clearbody m.
  split; nra.
Qed.

Lemma ai_fold_range (t1 t2 : gmap string Q) (l : list (string * Q)) (a : Q) :
  Forall (fun tw => 0 <= tw.2) l ->
  exists q, fold_left (AIService.traitStep t1 t2) l (Js.Num a) = Js.Num q /\
            a <= q <= a + 100 * foldr Qplus 0 l.*2.
Proof.
  intros Hl. revert a.
  induction Hl as [|tw l Hw _ IH]; intros a;
    rewrite ?fmap_cons; cbn [fold_left foldr].
  - exists a. split; [done | simpl; lra].
  - destruct (ai_step_range t1 t2 a tw Hw) as (q1 & -> & Hq1).
    destruct (IH q1) as (q & -> & Hq).
    exists q. split; [done | lra].
Qed.

(** [calculatePersonalityCompatibility] answers a number between 0 and 100
    on any two profiles, whichever traits they hold. *)
Theorem calculatePersonalityCompatibility_range (t1 t2 : gmap string Q) :
  exists q, AIService.calculatePersonalityCompatibility (Some t1) (Some t2)
            = Js.Ok (Js.Num q) /\ 0 <= q <= 100.
Proof.
  unfold AIService.calculatePersonalityCompatibility.
  destruct (ai_fold_range t1 t2 AIService.weights 0) as (q & -> & Hq).
  { unfold AIService.weights. repeat constructor; simpl; lra. }
  exists q. split; [done|].
  destruct weights_sum_to_one as [_ Hs]. rewrite Hs in Hq. lra.
Qed.

(** An absent trait and the value 50 give the same score. *)
Theorem calculatePersonalityCompatibility_default (t1 t2 : gmap string Q)
    (trait : string) :
  t1 !! trait = None ->
  AIService.calculatePersonalityCompatibility (Some (<[trait := 50]> t1))
    (Some t2)
  = AIService.calculatePersonalityCompatibility (Some t1) (Some t2).
Proof.
  intros Hnone. unfold AIService.calculatePersonalityCompatibility. f_equal.
  generalize (Js.Num 0). induction AIService.weights as [|tw l IH];
    intros acc; simpl; [done|].
  rewrite <- IH. f_equal. unfold AIService.traitStep.
  destruct (decide (trait = tw.1)) as [->|Hne].
  - by rewrite lookup_insert_eq, Hnone.
  - by rewrite lookup_insert_ne.
Qed.

Lemma analyze_step_range (t1 t2 : gmap string Q) (a : Q) (tw : string * Q) :
  0 <= tw.2 -> is_Some (t1 !! tw.1) -> is_Some (t2 !! tw.1) ->
  exists q, MatchingService.traitStep t1 t2 (Js.Num a) tw = Js.Num q /\
            q <= a + tw.2.
Proof.
  intros Hw [x Hx] [y Hy]. unfold MatchingService.traitStep.
  rewrite Hx, Hy.
  cbn [Js.abs Js.sub Js.mul Js.max Js.add Js.div Js.lift2 Js.toNumber].
  change (Qeq_bool 100 0) with false. cbv iota.
  eexists. split; [reflexivity|].
  pose proof (Qabs_nonneg (x - y)) as Habs.
  set (d := Qabs (x - y)) in *. clearbody d.
  assert (Hd : 1 - d / 100 <= 1).
  { unfold Qdiv. change (/ 100) with (1 # 100). lra. }
  set (r := 1 - d / 100) in *. clearbody r.
  nra.
Qed.

Lemma analyze_fold_range (t1 t2 : gmap string Q) (l : list (string * Q))
    (a : Q) :
  Forall (fun tw => 0 <= tw.2 /\ is_Some (t1 !! tw.1) /\ is_Some (t2 !! tw.1))
    l ->
  exists q, fold_left (MatchingService.traitStep t1 t2) l (Js.Num a)
            = Js.Num q /\ q <= a + foldr Qplus 0 l.*2.
Proof.
  intros Hl. revert a.
  induction Hl as [|tw l (Hw & H1 & H2) _ IH]; intros a;
    rewrite ?fmap_cons; cbn [fold_left foldr].
  - exists a. split; [done | simpl; lra].
  - destruct (analyze_step_range t1 t2 a tw Hw H1 H2) as (q1 & -> & Hq1).
    destruct (IH q1) as (q & -> & Hq).
    exists q. split; [done | lra].
Qed.

(** On two profiles that hold all six weighted traits
    [analyzePersonalityTraits] answers a number between 0 and 100. *)
Theorem analyzePersonalityTraits_range (t1 t2 : gmap string Q) :
  (forall trait, trait ∈ MatchingService.weights.*1 ->
                 is_Some (t1 !! trait) /\ is_Some (t2 !! trait)) ->
  exists q, MatchingService.analyzePersonalityTraits (Some t1) (Some t2)
            = Js.Ok (Js.Num q) /\ 0 <= q <= 100.
Proof.
  intros Hall. unfold MatchingService.analyzePersonalityTraits.
  destruct (analyze_fold_range t1 t2 MatchingService.weights 0)
    as (q & -> & Hq).
  { assert (Hpos : Forall (fun tw : string * Q => 0 <= tw.2)
                     MatchingService.weights).
    { unfold MatchingService.weights. repeat constructor; simpl; lra. }
    apply Forall_forall. intros [tr w] Hin. split.
    - by apply (proj1 (Forall_forall _ _) Hpos (tr, w)).
    - apply Hall. apply list_elem_of_fmap. by exists (tr, w). }
  cbn [Js.mul Js.max Js.lift2]. eexists. split; [reflexivity|].
  destruct weights_sum_to_one as [Hs _]. rewrite Hs in Hq.
  split; [apply Q.le_max_l | apply Q.max_lub; lra].
Qed.

End TraitFacts.

(** ** The blended score *)

Module CompatibilityFacts.
Import MatchingService Vocabulary Samples.

Local Open Scope Q_scope.

(** The deal-breaker score is 0 on a veto and 100 otherwise. *)
Lemma checkDealBreakers_veto (user1 user2 : User) :
  checkDealBreakers user1 user2 =
  if vetoTriggered user1 user2 then Js.Num 0 else Js.Num 100.
Proof.
  unfold checkDealBreakers, vetoTriggered, vetoes. cbv zeta.
  generalize (default (mkDealBreakers false false false) (dealBreakers user1))
             (default (mkDealBreakers false false false) (dealBreakers user2))
             (from_option ls_smoking false (lifestyle user1))
             (from_option ls_smoking false (lifestyle user2))
             (hasKids user1) (hasKids user2) (hasPets user1) (hasPets user2).
  intros [s1 k1 p1] [s2 k2 p2] sm1 sm2 hk1 hk2 hp1 hp2. simpl.
  repeat match goal with
    | |- context [if ?b && _ then _ else _] => is_var b; destruct b; simpl
    | |- context [if ?b then _ else _] => is_var b; destruct b; simpl
    end;
    rewrite ?orb_true_r, ?orb_false_r, ?andb_false_r, ?andb_true_r;
    try reflexivity;
    repeat match goal with
      | |- context [?b] => is_var b; destruct b; simpl; try reflexivity
      end.
Qed.

(** The trait scorer returns as soon as both trait objects are there. *)
Lemma analyzePersonalityTraits_returns (t1 t2 : gmap string Q) :
  exists p, analyzePersonalityTraits (Some t1) (Some t2) = Js.Ok p.
Proof. unfold analyzePersonalityTraits. by eexists. Qed.

(** The veto looks at both directions alike. *)
Lemma checkDealBreakers_sym (user1 user2 : User) :
  checkDealBreakers user1 user2 = checkDealBreakers user2 user1.
Proof.
  rewrite !checkDealBreakers_veto. unfold vetoTriggered.
  by rewrite orb_comm.
Qed.

Section Service.

Variable chatCompletion :
  option (gmap string Q) -> option (gmap string Q) -> Js.num ->
  Js.completion string.

Local Abbreviation calculateCompatibility :=
  (MatchingService.calculateCompatibility chatCompletion).

(** [calculateCompatibility] throws on every pair of users: without a
    trait object the trait scorer throws, and with both the call of
    [this.analyzeLifestyle], which the class does not define, does. *)
Lemma calculateCompatibility_throws (user1 user2 : User) :
  calculateCompatibility user1 user2 = Js.Throw Js.TypeError.
Proof.
  unfold MatchingService.calculateCompatibility.
  by destruct (analyzePersonalityTraits _ _) as [p|[]].
Qed.

(** C1. On two structurally valid profiles, as on every pair of users,
    [calculateCompatibility] throws a [TypeError] and returns no result,
    whatever the enrichment service does: with both trait objects there the
    trait scorer returns and the call of [this.analyzeLifestyle] throws. *)
Theorem calculateCompatibility_valid_profiles_throw (user1 user2 : User) :
  calculateCompatibility user1 user2 = Js.Throw Js.TypeError /\
  (validProfile user1 = true -> validProfile user2 = true ->
   (exists p, analyzePersonalityTraits (personalityTraits user1)
                (personalityTraits user2) = Js.Ok p) /\
   Js.call analyzeLifestyle user1 user2 = Js.Throw Js.TypeError).
Proof.
  split; [apply calculateCompatibility_throws|].
  unfold validProfile. intros V1 V2.
  destruct (personalityTraits user1) as [t1|]; [|done].
  destruct (personalityTraits user2) as [t2|]; [|done].
  split; [apply analyzePersonalityTraits_returns | done].
Qed.

(** A failing enrichment call gives the insight [null]. *)
Lemma getAICompatibilityInsight_failure (user1 user2 : User) (score : Js.num)
    (e : Js.error) :
  chatCompletion (personalityTraits user1) (personalityTraits user2) score
  = Js.Throw e ->
  getAICompatibilityInsight chatCompletion user1 user2 score = None.
Proof. unfold getAICompatibilityInsight. by intros ->. Qed.

End Service.

Lemma calculateCompatibility_valid_profiles_throw_witness :
  (exists p, analyzePersonalityTraits (personalityTraits vetoer)
               (personalityTraits smoker) = Js.Ok p) /\
  Js.call analyzeLifestyle vetoer smoker = Js.Throw Js.TypeError.
Proof.
  apply (proj2 (calculateCompatibility_valid_profiles_throw
                  noCompletion vetoer smoker)); reflexivity.
Defined.

(** Two profiles that pass the validator and hold all six weighted
    traits. *)
Example calculateCompatibility_valid_pair_throws :
  validProfile vetoer = true /\ validProfile smoker = true /\
  MatchingService.calculateCompatibility noCompletion vetoer smoker
  = Js.Throw Js.TypeError.
Proof. split_and!; reflexivity. Qed.




(** The same two blends on doubles: 90 with the veto and 100 without, 10
    apart, with no rounding at these values. *)
Example blend_of_maximal_scores_on_doubles :
  Double.blend 100 100 0 = 90%float /\
  Double.blend 100 100 100 = 100%float /\
  (Double.blend 100 100 100 - Double.blend 100 100 0 = 10)%float /\
  PrimFloat.leb 90 (Double.blend 100 100 0) = true.
Proof. split_and!; reflexivity. Qed.

End CompatibilityFacts.

(** ** Discovery *)

Module DiscoveryFacts.
Import MatchingService Vocabulary Samples.

Local Open Scope Q_scope.












Section Service.

Variable chatCompletion :
  option (gmap string Q) -> option (gmap string Q) -> Js.num ->
  Js.completion string.
Variable findById : string -> option User.
Variable find : Query -> list User.

Local Abbreviation calculateCompatibility :=
  (MatchingService.calculateCompatibility chatCompletion).
Local Abbreviation collect :=
  (MatchingService.collect chatCompletion).
Local Abbreviation findMatches :=
  (MatchingService.findMatches chatCompletion findById find).


(** The loop fails at its first candidate. *)
Lemma collect_first_candidate (user potential : User) (rest : list User)
    (acc : list MatchEntry) :
  collect user (potential :: rest) acc = Js.Throw Js.TypeError.
Proof.
  cbn [MatchingService.collect].
  by rewrite CompatibilityFacts.calculateCompatibility_throws.
Qed.




(** [findMatches] returns exactly when the seeker is found, has preferences
    and the query finds no candidate; it then returns the empty array. *)
Theorem findMatches_returns_iff (userId : string) (limit : option Z)
    (ms : list MatchEntry) :
  findMatches userId limit = Js.Ok ms <->
  ms = [] /\
  exists user prefs,
    findById userId = Some user /\ preferences user = Some prefs /\
    find (mkQuery userId true (location user) (maxDistance prefs)) = [].
Proof.
  unfold MatchingService.findMatches. cbv zeta. split.
  - destruct (findById userId) as [user|] eqn:Hu; [|done].
    destruct (preferences user) as [prefs|] eqn:Hp; [|done].
    destruct (find _) as [|p pool] eqn:F.
    + cbn [MatchingService.collect mbind completion_bind Js.bind].
      intros [= <-]. split.
      * unfold sort, Js.slice0. cbn [fold_left].
        destruct (default 10%Z limit <? 0)%Z; apply take_nil.
      * by exists user, prefs.
    + by rewrite collect_first_candidate.
  - intros (-> & user & prefs & -> & -> & ->).
    cbn [MatchingService.collect mbind completion_bind Js.bind].
    unfold sort, Js.slice0. cbn [fold_left].
    destruct (default 10%Z limit <? 0)%Z; by rewrite take_nil.
Qed.

End Service.



Lemma findMatches_returns_iff_witness :
  findMatches noCompletion directory nobody "0" None = Js.Ok [].
Proof.
  apply (proj2 (findMatches_returns_iff noCompletion directory nobody
                  "0" None [])).
  split; [reflexivity|]. eexists _, _. split_and!; reflexivity.
Defined.


(** Twelve retained entries: the first ten of the sorted array are kept. *)
Example slice_of_twelve :
  length (Js.slice0
            (sort (replicate 12 second)) (default 10%Z None)) = 10%nat.
Proof. reflexivity. Qed.

End DiscoveryFacts.

(** ** The handler and the collection *)

Module HandlerFacts.
Import MatchRoute Vocabulary Samples.

Lemma isPair_users (a b : string) (m m' : Match) :
  user1 m = user1 m' -> user2 m = user2 m' -> isPair a b m = isPair a b m'.
Proof. unfold isPair. by intros -> ->. Qed.

Lemma isPair_swap (a b : string) (m : Match) : isPair a b m = isPair b a m.
Proof. unfold isPair. apply orb_comm. Qed.

Lemma applyAction_keeps (m : Match) (u : string) (a : Action) :
  match_id (applyAction m u a) = match_id m /\
  user1 (applyAction m u a) = user1 m /\
  user2 (applyAction m u a) = user2 m.
Proof.
  unfold applyAction, checkMutual, updateAction.
  by repeat case_match.
Qed.

(** Two records of a collection with distinct identifiers are equal when
    their identifiers are. *)
Lemma same_id_same_record (l : list Match) (d m0 : Match) :
  NoDup (match_id <$> l) -> d ∈ l -> m0 ∈ l ->
  match_id d = match_id m0 -> d = m0.
Proof.
  induction l as [|x l IH]; intros Hnd Hd Hm Hid.
  - by apply elem_of_nil in Hd.
  - rewrite fmap_cons in Hnd. apply NoDup_cons in Hnd as [Hx Hnd].
    apply elem_of_cons in Hd as [->|Hd], Hm as [->|Hm]; [done | | |by apply IH].
    + exfalso. apply Hx. rewrite Hid. by apply list_elem_of_fmap_2.
    + exfalso. apply Hx. rewrite <- Hid. by apply list_elem_of_fmap_2.
Qed.

Lemma filter_map_length {A : Type} (p : A -> bool) (f : A -> A) (l : list A) :
  (forall d, d ∈ l -> p (f d) = p d) ->
  length (List.filter p (map f l)) = length (List.filter p l).
Proof.
  induction l as [|x l IH]; intros H; [done|].
  cbn [map List.filter]. rewrite (H x) by constructor.
  assert (IH' : length (List.filter p (map f l)) = length (List.filter p l)).
  { apply IH. intros d Hd. apply H. by constructor. }
  destruct (p x); simpl; by rewrite IH'.
Qed.

(** Writing back a record of the collection keeps the collection
    consistent. *)
Lemma save_existing (m0 m : Match) (db : Db) :
  Consistent db -> m0 ∈ matches db ->
  match_id m = match_id m0 -> user1 m = user1 m0 -> user2 m = user2 m0 ->
  Consistent (save m db) /\ m ∈ matches (save m db) /\
  nextId (save m db) = nextId db.
Proof.
  intros [Hf Hd Hu] Hin Hid H1 H2. unfold save.
  assert (Hex : existsb (fun d => Nat.eqb (match_id d) (match_id m))
                  (matches db) = true).
  { apply existsb_exists. exists m0. split; [by apply list_elem_of_In|].
    apply Nat.eqb_eq. done. }
  rewrite Hex. cbn [matches nextId].
  set (f := fun d => if Nat.eqb (match_id d) (match_id m) then m else d).
  assert (Hfid : forall d, match_id (f d) = match_id d).
  { intros d. unfold f. destruct (Nat.eqb_spec (match_id d) (match_id m)); done. }
  split_and!; [constructor; cbn [matches nextId]| |done].
  - apply Forall_forall. intros d Hd'.
    apply list_elem_of_In, in_map_iff in Hd' as (d0 & <- & Hd0).
    rewrite Hfid. apply list_elem_of_In in Hd0.
    by apply (proj1 (Forall_forall _ _) Hf).
  - assert (match_id <$> map f (matches db) = match_id <$> matches db) as ->;
      [|done].
    clear -Hfid. induction (matches db) as [|x l IH]; [done|].
    cbn [map]. rewrite !fmap_cons. by rewrite Hfid, IH.
  - intros a b. unfold pairCount. cbn [matches].
    rewrite filter_map_length; [apply Hu|].
    intros d Hd'. unfold f.
    destruct (Nat.eqb_spec (match_id d) (match_id m)) as [E|]; [|done].
    assert (d = m0) as ->.
    { apply (same_id_same_record (matches db)); [done..|congruence]. }
    by apply isPair_users.
  - apply list_elem_of_In, in_map_iff. exists m0.
    split; [|by apply list_elem_of_In].
    unfold f. rewrite Hid. by rewrite Nat.eqb_refl.
Qed.

(** Inserting the first record of a pair, under a fresh identifier, keeps
    the collection consistent. *)
Lemma save_new (m : Match) (db : Db) :
  Consistent db -> match_id m = nextId db ->
  pairCount (user1 m) (user2 m) db = 0%nat ->
  let db' := save m (mkDb (matches db) (S (nextId db))) in
  Consistent db' /\ m ∈ matches db' /\ matches db' = matches db ++ [m].
Proof.
  intros [Hf Hd Hu] Hid Hnone. cbv zeta. unfold save. cbn [matches nextId].
  assert (Hex : existsb (fun d => Nat.eqb (match_id d) (match_id m))
                  (matches db) = false).
  { apply not_true_iff_false. intros Hex.
    apply existsb_exists in Hex as (d & Hd' & E).
    apply Nat.eqb_eq in E. apply list_elem_of_In in Hd'.
    pose proof (proj1 (Forall_forall _ _) Hf d Hd'). simpl in *. lia. }
  rewrite Hex. cbn [matches nextId].
  split_and!; [constructor; cbn [matches nextId]| |done].
  - apply Forall_app. split.
    + eapply Forall_impl; [exact Hf|]. intros d Hlt. simpl in *. lia.
    + constructor; [simpl; lia | constructor].
  - rewrite fmap_app. apply NoDup_app. split_and!; [done| |].
    + intros i Hi Hi'. apply list_elem_of_fmap in Hi as (d & -> & Hd').
      apply list_elem_of_singleton in Hi'.
      pose proof (proj1 (Forall_forall _ _) Hf d Hd'). simpl in *. lia.
    + apply NoDup_singleton.
  - intros a b. unfold pairCount. cbn [matches].
    rewrite List.filter_app, length_app. cbn [List.filter].
    destruct (isPair a b m) eqn:E; [|specialize (Hu a b); simpl;
      unfold pairCount in Hu; lia].
    assert (length (List.filter (isPair a b) (matches db)) = 0%nat) as ->;
      [|simpl; lia].
    unfold pairCount in Hnone.
    rewrite <- Hnone. f_equal. apply List.filter_ext. intros d.
    unfold isPair in *.
    repeat match goal with
      | H : context [String.eqb ?x ?y] |- _ =>
          destruct (String.eqb_spec x y); simpl in H; subst
      end; try done;
      rewrite ?String.eqb_refl; simpl; rewrite ?orb_true_r, ?orb_diag;
      try done; by rewrite orb_comm.
  - apply elem_of_app. right. constructor.
Qed.

(** Writing back a record of the collection changes no count of records
    of a pair, and every stored record keeps its identifier and users. *)
Lemma save_existing_frame (m0 m : Match) (db : Db) :
  Consistent db -> m0 ∈ matches db ->
  match_id m = match_id m0 -> user1 m = user1 m0 -> user2 m = user2 m0 ->
  (forall a b, pairCount a b (save m db) = pairCount a b db) /\
  (forall d, d ∈ matches db ->
     exists d', d' ∈ matches (save m db) /\ match_id d' = match_id d /\
                user1 d' = user1 d /\ user2 d' = user2 d).
Proof.
  intros [Hf Hd Hu] Hin Hid H1 H2. unfold save.
  assert (Hex : existsb (fun d => Nat.eqb (match_id d) (match_id m))
                  (matches db) = true).
  { apply existsb_exists. exists m0. split; [by apply list_elem_of_In|].
    apply Nat.eqb_eq. done. }
  rewrite Hex.
  set (f := fun d => if Nat.eqb (match_id d) (match_id m) then m else d).
  assert (Hsame : forall d, d ∈ matches db ->
            match_id (f d) = match_id d /\ user1 (f d) = user1 d /\
            user2 (f d) = user2 d).
  { intros d Hd'. unfold f.
    destruct (Nat.eqb_spec (match_id d) (match_id m)) as [E|]; [|done].
    assert (d = m0) as ->.
    { apply (same_id_same_record (matches db)); [done..|congruence]. }
    done. }
  split.
  - intros a b. unfold pairCount. cbn [matches].
    apply filter_map_length. intros d Hd'.
    destruct (Hsame d Hd') as (_ & E1 & E2). by apply isPair_users.
  - intros d Hd'. exists (f d). cbn [matches]. split; [|by apply Hsame].
    apply list_elem_of_In, in_map. by apply list_elem_of_In.
Qed.

Section Handler.

Variable calculateCompatibility :
  string -> string -> Js.completion (Js.value MatchingService.Compatibility).
Variable generateMatchAnalysis : string -> string -> Js.completion string.

Local Abbreviation step :=
  (MatchRoute.step calculateCompatibility generateMatchAnalysis).
Local Abbreviation handle :=
  (MatchRoute.handle calculateCompatibility generateMatchAnalysis).

Lemma step_AfterSave (req : Request) (m : Match) (db : Db) :
  Consistent db -> m ∈ matches db ->
  Consistent (step (AfterSave req m) db).2.
Proof.
  intros Hc Hin. cbn [MatchRoute.step].
  destruct (bool_decide (status m = mutual)); [|done].
  destruct (generateMatchAnalysis _ _) as [text|e]; [|done].
  by apply (save_existing m (setAiAnalysis m (Some text)) db).
Qed.

Lemma step_Finished (r : Response) (db : Db) :
  step (Finished r) db = (Finished r, db).
Proof. done. Qed.

(** Handlers that run one after the other keep one record per unordered
    pair. *)
Theorem handle_keeps_consistent (req : Request) (db : Db) :
  Consistent db -> Consistent (handle req db).2.
Proof.
  intros Hc. unfold MatchRoute.handle. cbn [MatchRoute.step].
  destruct (String.eqb (userId req) (targetUserId req)); [done|].
  cbn [MatchRoute.step].
  destruct (findOne (userId req) (targetUserId req) db) as [m0|] eqn:F.
  - unfold findOne in F. apply List.find_some in F as [Hin _].
    apply list_elem_of_In in Hin.
    destruct (applyAction_keeps m0 (userId req) (action req))
      as (Hid & H1 & H2).
    destruct (save_existing m0 (applyAction m0 (userId req) (action req)) db)
      as (Hc' & Hin' & _); [done..|].
    by apply step_AfterSave.
  - destruct (calculateCompatibility _ _) as [score|e];
      cbn [mbind completion_bind Js.bind]; [|done].
    set (m0 := newMatch (nextId db) (userId req) (targetUserId req) score).
    destruct (applyAction_keeps m0 (userId req) (action req))
      as (Hid & H1 & H2).
    destruct (save_new (applyAction m0 (userId req) (action req)) db)
      as (Hc' & Hin' & _); [done | by rewrite Hid | |by apply step_AfterSave].
    rewrite H1, H2. unfold findOne in F. unfold pairCount. cbn [m0 newMatch user1 user2].
    assert (List.filter (isPair (userId req) (targetUserId req)) (matches db)
            = []) as ->; [|done].
    apply ListFacts.filter_none, Forall_forall. intros d Hd.
    apply list_elem_of_In in Hd. by apply (List.find_none _ _ F).
Qed.

(** The empty collection is consistent. *)
Lemma emptyDb_consistent : Consistent emptyDb.
Proof.
  split; [apply Forall_nil_2 | apply NoDup_nil_2 |].
  intros a b. unfold pairCount. simpl. lia.
Qed.

End Handler.

(** The collection that holds one record is consistent. *)
Lemma oneRecord_consistent : Consistent oneRecord.
Proof.
  split.
  - repeat constructor.
  - apply NoDup_singleton.
  - intros a b. unfold pairCount. simpl.
    by destruct (isPair a b liked_by_second); simpl; lia.
Qed.

(** *** Handlers interleaved, with the scorer of the sources *)

Section Interleaved.

Variable chatCompletion :
  option (gmap string Q) -> option (gmap string Q) -> Js.num ->
  Js.completion string.
Variable generateMatchAnalysis : string -> string -> Js.completion string.

Local Abbreviation step :=
  (MatchRoute.step (scoreOfIds chatCompletion) generateMatchAnalysis).
Local Abbreviation run :=
  (MatchRoute.run (scoreOfIds chatCompletion) generateMatchAnalysis).

(** The scorer of the sources throws on every pair of identifiers. *)
Lemma scoreOfIds_throws (userId targetUserId : string) :
  scoreOfIds chatCompletion userId targetUserId = Js.Throw Js.TypeError.
Proof.
  unfold scoreOfIds.
  by rewrite CompatibilityFacts.calculateCompatibility_throws.
Qed.

(** Entered or not, the call of the route ends alike: the two readings of
    [MatchingService.calculateCompatibility(userId, targetUserId)] give the
    same completion. *)
Lemma scoreOfIds_scoreOfExport (userId targetUserId : string) :
  scoreOfIds chatCompletion userId targetUserId
  = scoreOfExport userId targetUserId.
Proof. by rewrite scoreOfIds_throws. Qed.

Lemma Tracks_stored (db db' : Db) (t : Task) :
  (forall d, d ∈ matches db ->
     exists d', d' ∈ matches db' /\ match_id d' = match_id d /\
                user1 d' = user1 d /\ user2 d' = user2 d) ->
  Tracks db t -> Tracks db' t.
Proof.
  intros Hkeep. unfold Tracks. cbv zeta.
  assert (Hm : forall m,
            (exists d, d ∈ matches db /\ match_id d = match_id m /\
                       user1 d = user1 m /\ user2 d = user2 m) ->
            exists d, d ∈ matches db' /\ match_id d = match_id m /\
                      user1 d = user1 m /\ user2 d = user2 m).
  { intros m (d & Hd & E0 & E1 & E2).
    destruct (Hkeep d Hd) as (d' & Hd' & F0 & F1 & F2).
    exists d'. split_and!; congruence. }
  destruct t as [req|req [m|]|req m|r]; auto.
Qed.

(** A record saved in the place of a tracked one. *)
Lemma step_save (m m' : Match) (db : Db) :
  Consistent db ->
  (exists d, d ∈ matches db /\ match_id d = match_id m /\
             user1 d = user1 m /\ user2 d = user2 m) ->
  match_id m' = match_id m -> user1 m' = user1 m -> user2 m' = user2 m ->
  Consistent (save m' db) /\
  (forall a b, pairCount a b (save m' db) = pairCount a b db) /\
  (forall t, Tracks db t -> Tracks (save m' db) t) /\
  (exists d, d ∈ matches (save m' db) /\ match_id d = match_id m' /\
             user1 d = user1 m' /\ user2 d = user2 m').
Proof.
  intros Hc (d & Hd & E0 & E1 & E2) F0 F1 F2.
  destruct (save_existing d m' db) as (Hc' & Hin' & _);
    [done | done | congruence..|].
  destruct (save_existing_frame d m' db) as (Hcount & Hkeep);
    [done | done | congruence..|].
  split_and!; [done | done | |by exists m'].
  intros t. by apply Tracks_stored.
Qed.

(** One resumption of a handler inserts nothing. *)
Lemma step_inserts_nothing (t : Task) (db : Db) :
  Consistent db -> Tracks db t ->
  Consistent (step t db).2 /\
  (forall a b, pairCount a b (step t db).2 = pairCount a b db) /\
  (forall t0, Tracks db t0 -> Tracks (step t db).2 t0) /\
  Tracks (step t db).2 (step t db).1.
Proof.
  intros Hc Ht. destruct t as [req|req [m|]|req m|r]; cbn [MatchRoute.step].
  - destruct (String.eqb (userId req) (targetUserId req)); cbn [fst snd];
      [by split_and!|].
    split_and!; [done..|].
    destruct (findOne (userId req) (targetUserId req) db) as [m|] eqn:F;
      [|done].
    unfold findOne in F. apply List.find_some in F as [Hin _].
    exists m. split_and!; [by apply list_elem_of_In | done..].
  - cbn [fst snd].
    destruct (applyAction_keeps m (userId req) (action req))
      as (E0 & E1 & E2).
    destruct (step_save m (applyAction m (userId req) (action req)) db)
      as (Hc' & Hcount & Hkeep & Hstored); [done..|].
    by split_and!.
  - rewrite scoreOfIds_throws. cbn [mbind completion_bind Js.bind fst snd].
    by split_and!.
  - destruct (bool_decide (status m = mutual)); [|by split_and!].
    destruct (generateMatchAnalysis _ _) as [text|e]; [|by split_and!].
    cbn [fst snd].
    destruct (step_save m (setAiAnalysis m (Some text)) db)
      as (Hc' & Hcount & Hkeep & _); [done..|].
    by split_and!.
  - by split_and!.
Qed.

Lemma run_inserts_nothing (schedule : list nat) :
  forall (tasks : list Task) (db : Db),
    Consistent db -> Forall (Tracks db) tasks ->
    Consistent (run schedule tasks db).2 /\
    (forall a b, pairCount a b (run schedule tasks db).2 = pairCount a b db).
Proof.
  induction schedule as [|i schedule IH]; intros tasks db Hc Hts;
    cbn [MatchRoute.run]; [done|].
  destruct (tasks !! i) as [t|] eqn:Hi; [|by apply IH].
  assert (Ht : Tracks db t).
  { by apply (proj1 (Forall_lookup _ _) Hts i). }
  destruct (step_inserts_nothing t db Hc Ht)
    as (Hc' & Hcount & Hkeep & Ht').
  destruct (step t db) as [t' db'] eqn:E. cbn [fst snd] in *.
  destruct (IH (<[i := t']> tasks) db') as (Hc'' & Hcount'); [done| |].
  - apply Forall_insert; [|done].
    eapply Forall_impl; [exact Hts|]. apply Hkeep.
  - split; [done|]. intros a b. by rewrite Hcount', Hcount.
Qed.

(** C9. Whatever the analysis service does and in whatever order the
    handlers of any requests are resumed at their suspension points, a
    collection with at most one record per unordered pair keeps at most one
    record per pair, and the number of records of every pair is unchanged:
    the scorer throws on every new pair, so no handler inserts a record. *)
Theorem run_keeps_one_record_per_pair (schedule : list nat)
    (reqs : list Request) (db : Db) :
  Consistent db ->
  let db' := (run schedule (AtStart <$> reqs) db).2 in
  Consistent db' /\ (forall a b, pairCount a b db' = pairCount a b db).
Proof.
  intros Hc. cbv zeta. apply run_inserts_nothing; [done|].
  apply Forall_fmap, Forall_forall. by intros req _.
Qed.

End Interleaved.

Lemma run_keeps_one_record_per_pair_witness :
  Consistent
    (MatchRoute.run (scoreOfIds noCompletion) analysisOfIds
       [0; 1; 0; 1; 0; 1]%nat (AtStart <$> [likeAB; likeBA]) oneRecord).2.
Proof.
  apply (run_keeps_one_record_per_pair noCompletion analysisOfIds
           [0; 1; 0; 1; 0; 1]%nat [likeAB; likeBA] oneRecord).
  apply oneRecord_consistent.
Defined.

(** Two submissions for a new pair, interleaved: both are answered 500 and
    nothing is stored. *)
Example new_pair_interleaved :
  MatchRoute.run (scoreOfIds noCompletion) analysisOfIds
    [0; 1; 0; 1; 0; 1]%nat [AtStart likeAB; AtStart likeBA] emptyDb
  = ([Finished Status500; Finished Status500], emptyDb).
Proof. reflexivity. Qed.

(** The find-then-create sequence itself is not atomic: with a scorer that
    returned, the same interleaving would store two records for the
    pair. *)
Example race_with_a_returning_scorer :
  pairCount "A" "B"
    (MatchRoute.run (fun _ _ => Js.Ok (Js.Number (Js.Num 85))) analysisOfIds
       [0; 1; 0; 1; 0; 1]%nat [AtStart likeAB; AtStart likeBA] emptyDb).2
  = 2%nat.
Proof. reflexivity. Qed.



End HandlerFacts.

(** ** More on the state machine and the handler *)

Module ActionFacts.
Import MatchRoute Vocabulary Samples.

(** A pass rejects the record from every state, [mutual] included. *)
Theorem pass_always_rejects (m : Match) (u : string) :
  status (applyAction m u pass) = rejected.
Proof.
  rewrite StateMachineFacts.applyAction_status. cbv zeta.
  unfold updateAction.
  destruct (String.eqb (user1 m) u); cbn [user1Action user2Action].
  - by rewrite (bool_decide_eq_false_2 (Some pass = Some like)).
  - rewrite (bool_decide_eq_false_2 (Some pass = Some like)) by done.
    by rewrite andb_false_r.
Qed.

(** A [mutual] record stays [mutual] under every action but a pass. *)
Theorem mutual_kept_unless_pass (m : Match) (u : string) (a : Action) :
  status m = mutual -> a <> pass -> status (applyAction m u a) = mutual.
Proof.
  intros Hm Ha. rewrite StateMachineFacts.applyAction_status. cbv zeta.
  rewrite (bool_decide_eq_false_2 _ Ha), Hm. by case_match.
Qed.

Lemma mutual_kept_unless_pass_witness :
  status (applyAction (applyAction liked_by_second "A" like) "B" super_like)
  = mutual.
Proof.
  apply (mutual_kept_unless_pass (applyAction liked_by_second "A" like)
           "B" super_like); [reflexivity | discriminate].
Defined.

(** An action writes the slot of its sender and leaves the other slot, the
    identifiers, the score, the band and the analysis as they were. *)
Theorem applyAction_frame (m : Match) (u : string) (a : Action) :
  let m' := applyAction m u a in
  match_id m' = match_id m /\ user1 m' = user1 m /\ user2 m' = user2 m /\
  compatibilityScore m' = compatibilityScore m /\
  matchType m' = matchType m /\ aiAnalysis m' = aiAnalysis m /\
  (if String.eqb (user1 m) u
   then user1Action m' = Some a /\ user2Action m' = user2Action m
   else user1Action m' = user1Action m /\ user2Action m' = Some a).
Proof.
  cbv zeta. unfold applyAction, checkMutual, updateAction.
  destruct (String.eqb (user1 m) u); by repeat case_match.
Qed.

(** A sender who is neither user of the record writes the second slot. *)
Example applyAction_stranger :
  user2Action (applyAction liked_by_second "C" pass) = Some pass.
Proof. reflexivity. Qed.

Section Handler.

Variable calculateCompatibility :
  string -> string -> Js.completion (Js.value MatchingService.Compatibility).
Variable generateMatchAnalysis : string -> string -> Js.completion string.

Local Abbreviation handle :=
  (MatchRoute.handle calculateCompatibility generateMatchAnalysis).

(** The handler answers 400 to an action on oneself, and 500 when the score
    of a new pair cannot be computed; in both cases the collection is left
    untouched. *)
Theorem handle_rejections (req : Request) (db : Db) :
  (userId req = targetUserId req -> handle req db = (Finished Status400, db))
  /\
  (userId req <> targetUserId req ->
   findOne (userId req) (targetUserId req) db = None ->
   (exists e, calculateCompatibility (userId req) (targetUserId req)
              = Js.Throw e) ->
   handle req db = (Finished Status500, db)).
Proof.
  split.
  - intros E. unfold MatchRoute.handle. cbn [MatchRoute.step].
    apply String.eqb_eq in E. by rewrite E.
  - intros E F [e He]. unfold MatchRoute.handle. cbn [MatchRoute.step].
    apply String.eqb_neq in E. rewrite E. cbn [MatchRoute.step].
    by rewrite F, He.
Qed.

(** On a pair that has a record the score service is not consulted: the
    outcome is the same whatever it would answer, and the stored score and
    band are those of the record. *)
Theorem handle_existing_no_rescoring
    (other : string -> string ->
             Js.completion (Js.value MatchingService.Compatibility))
    (req : Request) (db : Db) (m0 : Match) :
  findOne (userId req) (targetUserId req) db = Some m0 ->
  handle req db = MatchRoute.handle other generateMatchAnalysis req db.
Proof.
  intros F. unfold MatchRoute.handle. cbn [MatchRoute.step].
  destruct (String.eqb (userId req) (targetUserId req)); [done|].
  cbn [MatchRoute.step]. by rewrite F.
Qed.

(** A failing analysis after a mutual match answers 500, the record being
    already stored as [mutual]. *)
Theorem handle_analysis_failure (req : Request) (db : Db) (m0 : Match)
    (e : Js.error) :
  userId req <> targetUserId req ->
  findOne (userId req) (targetUserId req) db = Some m0 ->
  status (applyAction m0 (userId req) (action req)) = mutual ->
  generateMatchAnalysis (userId req) (targetUserId req) = Js.Throw e ->
  handle req db
  = (Finished Status500, save (applyAction m0 (userId req) (action req)) db).
Proof.
  intros E F Hm He. unfold MatchRoute.handle. cbn [MatchRoute.step].
  apply String.eqb_neq in E. rewrite E. cbn [MatchRoute.step].
  rewrite F. cbn [MatchRoute.step].
  by rewrite (bool_decide_eq_true_2 _ Hm), He.
Qed.

End Handler.

End ActionFacts.

(** ** The limiter against the whole history *)

Module SlidingWindowFacts.
Import Auth SlidingWindow.

Local Open Scope Z_scope.

Lemma serve_cons (maxRequests windowMs : Z) (requests : gmap string (list Z))
    (req : Request) (now : Z) (calls : list (Request * Z)) :
  serve maxRequests windowMs requests ((req, now) :: calls) =
  let r := limiter maxRequests windowMs requests req now in
  (r.1 :: (serve maxRequests windowMs r.2 calls).1,
   (serve maxRequests windowMs r.2 calls).2).
Proof.
  cbn [serve]. cbv zeta. destruct (limiter _ _ _ _ _) as [o requests'].
  cbn [fst snd]. by destruct (serve _ _ requests' calls).
Qed.

(** The limiter never stores more than [maxRequests] timestamps for a
    key. *)
Theorem serve_bounded (maxRequests windowMs : Z)
    (requests : gmap string (list Z)) (calls : list (Request * Z)) :
  (forall key l, requests !! key = Some l -> Z.of_nat (length l) <= maxRequests)
  ->
  forall key l,
    (serve maxRequests windowMs requests calls).2 !! key = Some l ->
    Z.of_nat (length l) <= maxRequests.
Proof.
  revert requests. induction calls as [|[req now] calls IH];
    intros requests Hb; [done|].
  rewrite serve_cons. cbv zeta. cbn [snd]. apply IH.
  unfold limiter. cbv zeta.
  destruct (Z.leb_spec maxRequests
              (Z.of_nat (length (List.filter
                 (fun time => now - windowMs <? time)
                 (default [] (requests !! keyOf req)))))) as [|Hlt];
    [done|].
  cbn [snd]. intros key l. destruct (decide (keyOf req = key)) as [<-|Hne].
  - rewrite lookup_insert_eq. intros [= <-].
    rewrite length_app. simpl. lia.
  - rewrite lookup_insert_ne by done. apply Hb.
Qed.

Lemma filter_window_twice (theta0 theta : Z) (l : list Z) :
  theta0 <= theta ->
  List.filter (fun time => theta <? time)
    (List.filter (fun time => theta0 <? time) l)
  = List.filter (fun time => theta <? time) l.
Proof.
  intros Hle. induction l as [|t l IH]; [done|]. cbn [List.filter].
  destruct (Z.ltb_spec theta0 t); cbn [List.filter].
  - by rewrite IH.
  - destruct (Z.ltb_spec theta t); [lia | done].
Qed.

Lemma timesOf_app (key : string) (h1 h2 : list (string * Z)) :
  timesOf key (h1 ++ h2) = timesOf key h1 ++ timesOf key h2.
Proof. unfold timesOf. by rewrite List.filter_app, fmap_app. Qed.

Lemma agrees_later (windowMs tlast now : Z) (requests : gmap string (list Z))
    (history : list (string * Z)) :
  tlast <= now -> agrees windowMs tlast requests history ->
  agrees windowMs now requests history.
Proof. intros Hle Ha key theta Ht. apply Ha. lia. Qed.

(** One admitted request keeps map and history in agreement. *)
Lemma agrees_admit (windowMs now : Z) (requests : gmap string (list Z))
    (history : list (string * Z)) (key : string) :
  agrees windowMs now requests history ->
  agrees windowMs now
    (<[key := List.filter (fun time => now - windowMs <? time)
                (default [] (requests !! key)) ++ [now]]> requests)
    (history ++ [(key, now)]).
Proof.
  intros Ha k theta Ht. rewrite timesOf_app.
  destruct (decide (key = k)) as [<-|Hne].
  - rewrite lookup_insert_eq. cbn [from_option id].
    rewrite !List.filter_app, filter_window_twice by lia.
    rewrite (Ha key theta Ht). f_equal.
    unfold timesOf. cbn [List.filter fst]. by rewrite String.eqb_refl.
  - rewrite lookup_insert_ne by done.
    rewrite (Ha k theta Ht).
    unfold timesOf at 3. cbn [List.filter fst].
    apply String.eqb_neq in Hne. rewrite Hne. cbn [fmap list_fmap].
    by rewrite app_nil_r.
Qed.

Lemma serve_refines (maxRequests windowMs : Z) (calls : list (Request * Z)) :
  forall (requests : gmap string (list Z)) (history : list (string * Z))
         (tlast : Z),
    agrees windowMs tlast requests history ->
    Forall (fun c : Request * Z => tlast <= c.2) calls ->
    StronglySorted (fun c1 c2 : Request * Z => c1.2 <= c2.2) calls ->
    (serve maxRequests windowMs requests calls).1
    = decisions maxRequests windowMs history calls.
Proof.
  induction calls as [|[req now] calls IH];
    intros requests history tlast Ha Hge Hs; [done|].
  apply Forall_cons in Hge as [Hnow _]. cbn [snd] in Hnow.
  apply StronglySorted_inv in Hs as [Hs Hrest].
  apply (agrees_later _ _ now) in Ha; [|done].
  rewrite serve_cons. cbv zeta. cbn [fst decisions].
  unfold limiter at 1 2. cbv zeta. unfold inWindow.
  rewrite (Ha (keyOf req) (now - windowMs)) by lia.
  destruct (maxRequests <=? _); cbn [fst snd]; f_equal.
  - by apply (IH _ _ now).
  - apply (IH _ _ now); [|done..].
    rewrite <- (Ha (keyOf req) (now - windowMs)) by lia.
    by apply agrees_admit.
Qed.

(** Served in the order of their times, from an empty map, the requests are
    decided as by a limiter that keeps every admitted request: pruning the
    stored timestamps loses nothing a later decision needs. *)
Theorem serve_sliding_window (maxRequests windowMs : Z)
    (calls : list (Request * Z)) :
  StronglySorted (fun c1 c2 : Request * Z => c1.2 <= c2.2) calls ->
  (serve maxRequests windowMs ∅ calls).1 = decisions maxRequests windowMs [] calls.
Proof.
  intros Hs. destruct calls as [|[req now] calls]; [done|].
  apply (serve_refines _ _ _ _ _ now); [done| |done].
  apply StronglySorted_inv in Hs as [_ Hrest].
  constructor; [simpl; lia | done].
Qed.

Lemma serve_sliding_window_witness :
  (serve 2 1000 ∅
     [(mkRequest "a" None, 0); (mkRequest "b" None, 5);
      (mkRequest "a" None, 10); (mkRequest "a" None, 20);
      (mkRequest "a" None, 1005); (mkRequest "a" None, 1008)]).1
  = [next; next; next; status429 1; next; status429 1].
Proof.
  rewrite serve_sliding_window; [reflexivity|].
  repeat (constructor; [|repeat constructor; simpl; lia]). constructor.
Defined.

(** Out of order the stored window has forgotten a request that the
    history still counts. *)
Example serve_out_of_order :
  (serve 2 1000 ∅ [(mkRequest "a" None, 0); (mkRequest "a" None, 2000);
                   (mkRequest "a" None, 500)]).1 = [next; next; next]
  /\ decisions 2 1000 [] [(mkRequest "a" None, 0); (mkRequest "a" None, 2000);
                          (mkRequest "a" None, 500)]
     = [next; next; status429 1].
Proof. split; reflexivity. Qed.

End SlidingWindowFacts.

(** ** Symmetry and extremes of the scorers *)

Module ScorerFacts.
Import JsMath.

Local Open Scope Q_scope.

Lemma sameNum_refl (a : Js.num) : sameNum a a.
Proof. destruct a; simpl; [reflexivity | done]. Qed.

Lemma analyze_step_sym (t1 t2 : gmap string Q) (a b : Js.num)
    (tw : string * Q) :
  sameNum a b ->
  sameNum (MatchingService.traitStep t1 t2 a tw)
          (MatchingService.traitStep t2 t1 b tw).
Proof.
  unfold MatchingService.traitStep.
  destruct (t1 !! tw.1) as [x|], (t2 !! tw.1) as [y|], a as [p|], b as [q|];
    try done.
  cbn [Js.toNumber Js.sub Js.abs Js.div Js.mul Js.add Js.lift2].
  change (Qeq_bool 100 0) with false. cbv iota.
  cbn [Js.sub Js.mul Js.add Js.lift2 sameNum].
  intros Hpq. rewrite Hpq, (Qabs_Qminus x y). reflexivity.
Qed.

Lemma analyze_fold_sym (t1 t2 : gmap string Q) (l : list (string * Q))
    (a b : Js.num) :
  sameNum a b ->
  sameNum (fold_left (MatchingService.traitStep t1 t2) l a)
          (fold_left (MatchingService.traitStep t2 t1) l b).
Proof.
  revert a b. induction l as [|tw l IH]; intros a b Hab; [done|].
  cbn [fold_left]. by apply IH, analyze_step_sym.
Qed.

(** [analyzePersonalityTraits] does not depend on the order of its
    arguments. *)
Theorem analyzePersonalityTraits_sym (traits1 traits2 : option (gmap string Q)) :
  sameResult (MatchingService.analyzePersonalityTraits traits1 traits2)
             (MatchingService.analyzePersonalityTraits traits2 traits1).
Proof.
  unfold MatchingService.analyzePersonalityTraits.
  destruct traits1 as [t1|], traits2 as [t2|]; try done.
  cbn [sameResult].
  pose proof (analyze_fold_sym t1 t2 MatchingService.weights
                (Js.Num 0) (Js.Num 0) (sameNum_refl _)) as H.
  destruct (fold_left (MatchingService.traitStep t1 t2) _ _) as [p|],
           (fold_left (MatchingService.traitStep t2 t1) _ _) as [q|];
    try done.
  cbn [Js.mul Js.max Js.lift2 sameNum] in *. rewrite H. reflexivity.
Qed.

Lemma analyze_fold_self (t : gmap string Q) (l : list (string * Q)) (a : Q) :
  Forall (fun tw : string * Q => is_Some (t !! tw.1)) l ->
  exists q, fold_left (MatchingService.traitStep t t) l (Js.Num a) = Js.Num q
            /\ q == a + foldr Qplus 0 l.*2.
Proof.
  intros Hl. revert a.
  induction Hl as [|tw l [x Hx] _ IH]; intros a;
    rewrite ?fmap_cons; cbn [fold_left foldr].
  - exists a. split; [done | simpl; ring].
  - unfold MatchingService.traitStep at 2. rewrite Hx.
    cbn [Js.toNumber Js.sub Js.abs Js.div Js.mul Js.add Js.lift2].
    change (Qeq_bool 100 0) with false. cbv iota.
    cbn [Js.sub Js.mul Js.add Js.lift2].
    destruct (IH (a + (1 - Qabs (x - x) / 100) * tw.2)) as (q & -> & Hq).
    exists q. split; [done|]. rewrite Hq.
    assert (Qabs (x - x) == 0) as ->.
    { rewrite (Qabs_wd (x - x) 0) by ring. reflexivity. }
    field.
Qed.

(** A profile with the six weighted traits scores 100 against itself. *)
Theorem analyzePersonalityTraits_self (t : gmap string Q) :
  (forall trait, trait ∈ MatchingService.weights.*1 -> is_Some (t !! trait)) ->
  exists q, MatchingService.analyzePersonalityTraits (Some t) (Some t)
            = Js.Ok (Js.Num q) /\ q == 100.
Proof.
  intros Hall. unfold MatchingService.analyzePersonalityTraits.
  destruct (analyze_fold_self t MatchingService.weights 0) as (q & -> & Hq).
  { apply Forall_forall. intros [tr w] Hin. apply Hall.
    apply list_elem_of_fmap. by exists (tr, w). }
  cbn [Js.mul Js.max Js.lift2]. eexists. split; [reflexivity|].
  destruct TraitFacts.weights_sum_to_one as [Hs _]. rewrite Hs in Hq.
  rewrite Hq. apply Q.max_r. lra.
Qed.

Lemma analyzePersonalityTraits_self_witness :
  exists q, MatchingService.analyzePersonalityTraits
              (Some Samples.sixTraits) (Some Samples.sixTraits)
            = Js.Ok (Js.Num q) /\ q == 100.
Proof.
  apply analyzePersonalityTraits_self. intros trait Hin.
  unfold MatchingService.weights in Hin. cbn [fmap list_fmap fst] in Hin.
  repeat (apply elem_of_cons in Hin as [->|Hin];
          [vm_compute; eexists; reflexivity|]).
  by apply elem_of_nil in Hin.
Defined.

Lemma ai_step_sym (t1 t2 : gmap string Q) (a b : Js.num) (tw : string * Q) :
  sameNum a b ->
  sameNum (AIService.traitStep t1 t2 a tw) (AIService.traitStep t2 t1 b tw).
Proof.
  unfold AIService.traitStep.
  destruct (TraitFacts.orElse_finite (t1 !! tw.1) 50) as [x ->].
  destruct (TraitFacts.orElse_finite (t2 !! tw.1) 50) as [y ->].
  destruct a as [p|], b as [q|]; try done.
  cbn [Js.sub Js.abs Js.mul Js.max Js.add Js.lift2 sameNum].
  intros Hpq. rewrite Hpq, (Qabs_Qminus x y). reflexivity.
Qed.

(** [calculatePersonalityCompatibility] does not depend on the order of its
    arguments. *)
Theorem calculatePersonalityCompatibility_sym
    (traits1 traits2 : option (gmap string Q)) :
  sameResult (AIService.calculatePersonalityCompatibility traits1 traits2)
             (AIService.calculatePersonalityCompatibility traits2 traits1).
Proof.
  unfold AIService.calculatePersonalityCompatibility.
  destruct traits1 as [t1|], traits2 as [t2|]; try done.
  cbn [sameResult]. generalize (sameNum_refl (Js.Num 0)).
  generalize (Js.Num 0) at 1 3. generalize (Js.Num 0).
  induction AIService.weights as [|tw l IH]; intros a b Hab; [done|].
  cbn [fold_left]. by apply IH, ai_step_sym.
Qed.

Lemma ai_fold_self (t : gmap string Q) (l : list (string * Q)) (a : Q) :
  exists q, fold_left (AIService.traitStep t t) l (Js.Num a) = Js.Num q
            /\ q == a + 100 * foldr Qplus 0 l.*2.
Proof.
  revert a. induction l as [|tw l IH]; intros a;
    rewrite ?fmap_cons; cbn [fold_left foldr].
  - exists a. split; [done | simpl; ring].
  - unfold AIService.traitStep at 2.
    destruct (TraitFacts.orElse_finite (t !! tw.1) 50) as [x ->].
    cbn [Js.sub Js.abs Js.mul Js.max Js.add Js.lift2].
    destruct (IH (a + Qmax 0 (100 - Qabs (x - x) * 2) * tw.2))
      as (q & -> & Hq).
    exists q. split; [done|]. rewrite Hq.
    assert (Qabs (x - x) == 0) as ->.
    { rewrite (Qabs_wd (x - x) 0) by ring. reflexivity. }
    assert (Qmax 0 (100 - 0 * 2) == 100) as ->.
    { apply Q.max_r. lra. }
    ring.
Qed.

(** Every profile, complete or not, scores 100 against itself in
    [calculatePersonalityCompatibility]. *)
Theorem calculatePersonalityCompatibility_self (t : gmap string Q) :
  exists q, AIService.calculatePersonalityCompatibility (Some t) (Some t)
            = Js.Ok (Js.Num q) /\ q == 100.
Proof.
  unfold AIService.calculatePersonalityCompatibility.
  destruct (ai_fold_self t AIService.weights 0) as (q & -> & Hq).
  exists q. split; [done|].
  destruct TraitFacts.weights_sum_to_one as [_ Hs]. rewrite Hs in Hq.
  rewrite Hq. ring.
Qed.

(** A trait stored as 0 is read as 50, like an absent one. *)
Theorem calculatePersonalityCompatibility_zero (t1 t2 : gmap string Q)
    (trait : string) :
  AIService.calculatePersonalityCompatibility (Some (<[trait := 0]> t1))
    (Some t2)
  = AIService.calculatePersonalityCompatibility (Some (<[trait := 50]> t1))
      (Some t2).
Proof.
  unfold AIService.calculatePersonalityCompatibility. f_equal.
  generalize (Js.Num 0). induction AIService.weights as [|tw l IH];
    intros acc; simpl; [done|].
  rewrite <- IH. f_equal. unfold AIService.traitStep.
  destruct (decide (trait = tw.1)) as [->|Hne].
  - by rewrite !lookup_insert_eq.
  - by rewrite !lookup_insert_ne.
Qed.

End ScorerFacts.

(** ** Lifestyle, interests and values *)

Module DetailFacts.
Import JsMath AIDetail.

Local Open Scope Q_scope.

Lemma truthy_Some (v : option Q) :
  Js.truthy v = true -> exists x, v = Some x.
Proof. destruct v; [by eexists | done]. Qed.

(** The running sum of the lifestyle loop stays between 0 and 100 per
    counted factor. *)
Lemma factor_fold_range (l1 l2 : gmap string Q) (fs : list string)
    (s : Q) (c : Z) :
  (0 <= c)%Z -> 0 <= s <= 100 * inject_Z c ->
  exists s' c',
    fold_left (AIService.factorStep l1 l2) fs (Js.Num s, c) = (Js.Num s', c')
    /\ (c <= c')%Z /\ 0 <= s' <= 100 * inject_Z c'.
Proof.
  revert s c. induction fs as [|f fs IH]; intros s c Hc Hs; cbn [fold_left].
  - exists s, c. split_and!; [done | lia | apply Hs | apply Hs].
  - unfold AIService.factorStep at 2.
    destruct (Js.truthy (l1 !! f) && Js.truthy (l2 !! f)) eqn:T.
    + apply andb_prop in T as [T1 T2].
      apply truthy_Some in T1 as [x ->]. apply truthy_Some in T2 as [y ->].
      cbn [fst snd Js.toNumber Js.sub Js.abs Js.mul Js.max Js.add Js.lift2].
      pose proof (Qabs_nonneg (x - y)) as Habs.
      pose proof (Q.le_max_l 0 (100 - Qabs (x - y) * 20)) as Hlo.
      assert (Hhi : Qmax 0 (100 - Qabs (x - y) * 20) <= 100).
      { apply Q.max_lub; lra. }
      set (m := Qmax 0 (100 - Qabs (x - y) * 20)) in *. clearbody m.
      destruct (IH (s + m) (c + 1)%Z) as (s' & c' & E & Hc' & Hs').
      { lia. }
      { rewrite inject_Z_plus. change (inject_Z 1) with 1. lra. }
      exists s', c'. split_and!; [done | lia | apply Hs' | apply Hs'].
    + destruct (IH s c Hc Hs) as (s' & c' & E & Hc' & Hs').
      exists s', c'. split_and!; [done | done | apply Hs' | apply Hs'].
Qed.

Lemma lifestyle_bounds (l1 l2 : gmap string Q) :
  exists q, AIService.calculateLifestyleCompatibility l1 l2 = Js.Num q
            /\ 0 <= q <= 100.
Proof.
  unfold AIService.calculateLifestyleCompatibility. cbv zeta.
  destruct (factor_fold_range l1 l2 AIService.factors 0 0)
    as (s & c & -> & Hc & Hs);
    [done | change (inject_Z 0) with 0; lra |].
  cbn [fst snd]. destruct (Z.ltb_spec 0 c) as [Hpos|]; [|exists 75; split; [done | lra]].
  assert (Hq : 0 < inject_Z c).
  { change 0 with (inject_Z 0). by rewrite <- Zlt_Qlt. }
  cbn [Js.div].
  destruct (Qeq_bool (inject_Z c) 0) eqn:E.
  { apply Qeq_bool_iff in E. lra. }
  eexists. split; [reflexivity|]. split.
  - apply Qle_shift_div_l; [done | lra].
  - apply Qle_shift_div_r; [done | lra].
Qed.

(** [calculateLifestyleCompatibility] answers a number between 0 and 100,
    and 75 when no factor is set (and non-zero) on both sides. *)
Theorem calculateLifestyleCompatibility_range (l1 l2 : gmap string Q) :
  (exists q, AIService.calculateLifestyleCompatibility l1 l2 = Js.Num q
             /\ 0 <= q <= 100) /\
  (Forall (fun f => Js.truthy (l1 !! f) && Js.truthy (l2 !! f) = false)
     AIService.factors ->
   AIService.calculateLifestyleCompatibility l1 l2 = Js.Num 75).
Proof.
  split; [apply lifestyle_bounds|].
  unfold AIService.calculateLifestyleCompatibility. cbv zeta.
  - intros Hnone.
    assert (fold_left (AIService.factorStep l1 l2) AIService.factors
              (Js.Num 0, 0%Z) = (Js.Num 0, 0%Z)) as ->; [|done].
    generalize (Js.Num 0, 0%Z).
    induction Hnone as [|f fs Hf _ IH]; intros acc; [done|].
    cbn [fold_left]. unfold AIService.factorStep at 2. by rewrite Hf.
Qed.

Lemma percentage_range (part whole : nat) :
  (0 < whole)%nat -> (part <= whole)%nat ->
  exists q, percentage part whole = Js.Num q /\ 0 <= q <= 100.
Proof.
  intros Hpos Hle. unfold percentage. cbn [Js.div].
  assert (Hw : 0 < inject_Z (Z.of_nat whole)).
  { change 0 with (inject_Z 0). rewrite <- Zlt_Qlt. lia. }
  assert (Hp : 0 <= inject_Z (Z.of_nat part)).
  { change 0 with (inject_Z 0). rewrite <- Zle_Qle. lia. }
  assert (Hpw : inject_Z (Z.of_nat part) <= inject_Z (Z.of_nat whole)).
  { rewrite <- Zle_Qle. lia. }
  destruct (Qeq_bool (inject_Z (Z.of_nat whole)) 0) eqn:E.
  { apply Qeq_bool_iff in E. lra. }
  cbn [Js.mul Js.lift2]. eexists. split; [reflexivity|].
  set (p := inject_Z (Z.of_nat part)) in *.
  set (w := inject_Z (Z.of_nat whole)) in *. clearbody p w.
  assert (H0 : 0 <= p / w) by (apply Qle_shift_div_l; [done | lra]).
  assert (H1 : p / w <= 1) by (apply Qle_shift_div_r; [done | lra]).
  lra.
Qed.

Lemma sharedValues_bounds (values1 values2 : list string) :
  exists q, calculateSharedValues values1 values2 = Js.Num q
            /\ 0 <= q <= 100.
Proof.
  unfold calculateSharedValues.
  destruct values1 as [|v1 values1]; [exists 50; split; [done | lra]|].
  destruct values2 as [|v2 values2]; [exists 50; split; [done | lra]|].
  change (Nat.eqb (length (v1 :: values1)) 0
          || Nat.eqb (length (v2 :: values2)) 0) with false.
  cbv iota zeta. apply percentage_range.
  - simpl. lia.
  - pose proof (List.filter_length_le (includes (v2 :: values2))
                  (v1 :: values1)). lia.
Qed.

(** [calculateSharedValues] answers a number between 0 and 100, and 50 when
    one side has no values. *)
Theorem calculateSharedValues_range (values1 values2 : list string) :
  (exists q, calculateSharedValues values1 values2 = Js.Num q
             /\ 0 <= q <= 100) /\
  (values1 = [] \/ values2 = [] ->
   calculateSharedValues values1 values2 = Js.Num 50).
Proof.
  split; [apply sharedValues_bounds|].
  unfold calculateSharedValues.
  intros [-> | ->]; [done|]. by rewrite orb_true_r.
Qed.

Lemma sharedInterests_bounds (interests1 interests2 : list string) :
  NoDup interests1 ->
  exists q, calculateSharedInterests interests1 interests2 = Js.Num q
            /\ 0 <= q <= 100.
Proof.
  intros Hnd. unfold calculateSharedInterests.
  destruct interests1 as [|i1 interests1]; [exists 50; split; [done | lra]|].
  destruct interests2 as [|i2 interests2]; [exists 50; split; [done | lra]|].
  change (Nat.eqb (length (i1 :: interests1)) 0
          || Nat.eqb (length (i2 :: interests2)) 0) with false.
  cbv iota zeta.
  set (l1 := i1 :: interests1) in *. set (l2 := i2 :: interests2) in *.
  assert (Hsub : List.filter (includes l2) l1 ⊆+ remove_dups (l1 ++ l2)).
  { apply NoDup_submseteq.
    - apply NoDup_ListNoDup, List.NoDup_filter, NoDup_ListNoDup, Hnd.
    - intros x Hx. apply elem_of_remove_dups, elem_of_app. left.
      apply list_elem_of_In, List.filter_In in Hx as [Hx _].
      by apply list_elem_of_In. }
  apply percentage_range; [|by apply submseteq_length].
  assert (i1 ∈ remove_dups (l1 ++ l2)) as Hin.
  { apply elem_of_remove_dups. unfold l1. simpl. constructor. }
  destruct (remove_dups (l1 ++ l2)); [by apply elem_of_nil in Hin|].
  simpl. lia.
Qed.

(** With no interest listed twice on the first side,
    [calculateSharedInterests] answers a number between 0 and 100. *)
Theorem calculateSharedInterests_range (interests1 interests2 : list string) :
  NoDup interests1 ->
  exists q, calculateSharedInterests interests1 interests2 = Js.Num q
            /\ 0 <= q <= 100.
Proof. apply sharedInterests_bounds. Qed.

Lemma calculateSharedInterests_range_witness :
  exists q, calculateSharedInterests ["chess"; "hiking"] ["hiking"; "jazz"]
            = Js.Num q /\ 0 <= q <= 100.
Proof.
  apply calculateSharedInterests_range.
  apply NoDup_cons. split; [|apply NoDup_singleton].
  intros H. apply list_elem_of_singleton in H. discriminate.
Defined.

(** An interest listed twice on the first side is counted twice: the score
    leaves the range. *)
Example calculateSharedInterests_duplicates :
  exists q, calculateSharedInterests ["hiking"; "hiking"] ["hiking"]
            = Js.Num q /\ q == 200.
Proof. eexists. split; [by vm_compute | by vm_compute]. Qed.

Lemma round_range (q : Q) :
  0 <= q <= 100 ->
  exists z, round (Js.Num q) = Js.Num (inject_Z z) /\ (0 <= z <= 100)%Z.
Proof.
  intros Hq. unfold round. eexists. split; [reflexivity|].
  split.
  - change 0%Z with (Qfloor 0). apply Qfloor_resp_le. lra.
  - pose proof (Qfloor_le (q + (1 # 2))) as Hle.
    assert (H : (Qfloor (q + (1 # 2)) < 101)%Z); [|lia].
    rewrite Zlt_Qlt. change (inject_Z 101) with 101. lra.
Qed.

(** With both trait objects there and no interest listed twice by the first
    user, [calculateDetailedCompatibility] answers a whole number between 0
    and 100; without a trait object it throws. *)
Theorem calculateDetailedCompatibility_range (user1 user2 : Member) :
  (is_Some (personalityTraits (member user1)) ->
   is_Some (personalityTraits (member user2)) ->
   NoDup (default [] (interests user1)) ->
   exists z, calculateDetailedCompatibility user1 user2
             = Js.Ok (Js.Num (inject_Z z)) /\ (0 <= z <= 100)%Z) /\
  (personalityTraits (member user1) = None \/
   personalityTraits (member user2) = None ->
   calculateDetailedCompatibility user1 user2 = Js.Throw Js.TypeError).
Proof.
  unfold calculateDetailedCompatibility. cbv zeta. split.
  - intros [t1 ->] [t2 ->] Hnd.
    unfold AIService.calculatePersonalityCompatibility.
    destruct (TraitFacts.ai_fold_range t1 t2 AIService.weights 0)
      as (p & -> & Hp).
    { unfold AIService.weights. repeat constructor; simpl; lra. }
    destruct TraitFacts.weights_sum_to_one as [_ Hsum]. rewrite Hsum in Hp.
    cbn [mbind completion_bind Js.bind].
    destruct (sharedInterests_bounds _ (default [] (interests user2))
                Hnd) as (i & -> & Hi).
    destruct (lifestyle_bounds
                (from_option ls_factors ∅ (lifestyle (member user1)))
                (from_option ls_factors ∅ (lifestyle (member user2))))
      as (l & -> & Hl).
    destruct (sharedValues_bounds
                (default [] (values user1)) (default [] (values user2)))
      as (v & -> & Hv).
    cbn [Js.mul Js.add Js.lift2].
    destruct (round_range (p * 0.4 + i * 0.2 + l * 0.2 + v * 0.2))
      as (z & -> & Hz); [lra|].
    by exists z.
  - unfold AIService.calculatePersonalityCompatibility.
    intros [-> | ->]; [done|].
    by destruct (personalityTraits (member user1)).
Qed.

Lemma calculateDetailedCompatibility_range_witness :
  exists z,
    calculateDetailedCompatibility
      (mkMember Samples.vetoer (Some ["chess"; "hiking"]) None)
      (mkMember Samples.smoker (Some ["hiking"]) (Some ["honesty"]))
    = Js.Ok (Js.Num (inject_Z z)) /\ (0 <= z <= 100)%Z.
Proof.
  apply calculateDetailedCompatibility_range.
  - by eexists.
  - by eexists.
  - apply NoDup_cons. split; [|apply NoDup_singleton].
    intros H. apply list_elem_of_singleton in H. discriminate.
Defined.

End DetailFacts.

(** ** Validation *)

Module ValidationFacts.
Import ProfileValidation.

Local Open Scope Q_scope.

(** A trait passes when it is there with a value in (0, 100]. *)
Lemma trait_passes (traits : gmap string Q) (trait : string) :
  negb (negb (Js.truthy (traits !! trait))
        || Js.lt (Js.toNumber (traits !! trait)) (Js.Num 0)
        || Js.gt (Js.toNumber (traits !! trait)) (Js.Num 100)) = true
  <-> exists v, traits !! trait = Some v /\ 0 < v <= 100.
Proof.
  destruct (traits !! trait) as [v|]; [|split; [done | by intros (? & ? & _)]].
  cbn [Js.truthy Js.toNumber Js.lt Js.gt].
  destruct (Qeq_bool v 0) eqn:E0.
  - apply Qeq_bool_iff in E0. split; [done|].
    intros (v' & [= <-] & Hv). lra.
  - assert (Hne : ~ v == 0).
    { intros H. apply Qeq_bool_iff in H. congruence. }
    destruct (JsFacts.Qle_bool_reflect 0 v), (JsFacts.Qle_bool_reflect v 100);
      cbn [negb orb]; split; try done.
    + intros _. exists v. split; [done | lra].
    + intros (v' & [= <-] & Hv). lra.
    + intros (v' & [= <-] & Hv). lra.
    + intros (v' & [= <-] & Hv). lra.
Qed.

(** [validatePersonalityTraits] accepts exactly the profiles whose five
    required traits are there with a value in (0, 100]: a value of 0 is
    refused, [emotionalIntelligence] and further keys are not looked at. *)
Theorem validatePersonalityTraits_iff (traits : gmap string Q) :
  Validation.validatePersonalityTraits traits = true <->
  forall trait, trait ∈ Validation.requiredTraits ->
                exists v, traits !! trait = Some v /\ 0 < v <= 100.
Proof.
  unfold Validation.validatePersonalityTraits. rewrite forallb_forall.
  split; intros H trait Hin.
  - apply trait_passes, H. by apply list_elem_of_In.
  - apply trait_passes, H. by apply list_elem_of_In.
Qed.

Lemma yearMs_whole : yearMs == inject_Z 31557600000.
Proof. reflexivity. Qed.

Lemma ageAt_whole (now birth : Z) :
  ageAt now (Some birth)
  = Js.Num (inject_Z ((now - birth) / 31557600000)%Z).
Proof.
  unfold ageAt. cbn [fmap option_fmap option_map Js.toNumber Js.sub Js.lift2 Js.div].
  change (Qeq_bool yearMs 0) with false. cbv iota. cbn [JsMath.floor].
  do 2 f_equal. rewrite Zdiv_Qdiv. apply Qfloor_comp.
  rewrite yearMs_whole. unfold Zminus. rewrite inject_Z_plus, inject_Z_opp.
  reflexivity.
Qed.

(** [validateAge] accepts a birth date exactly when at least 18 and less
    than 101 years of 365.25 days have passed; an invalid date is refused. *)
Theorem validateAge_iff (now : Z) (birthDate : option Z) :
  validateAge now birthDate = true <->
  exists birth, birthDate = Some birth /\
    (18 * 31557600000 <= now - birth < 101 * 31557600000)%Z.
Proof.
  unfold validateAge. cbv zeta. destruct birthDate as [birth|].
  - rewrite ageAt_whole. cbn [Js.ge]. rewrite andb_true_iff, !Qle_bool_iff.
    change 18 with (inject_Z 18). change 100 with (inject_Z 100).
    rewrite <- !Zle_Qle. split.
    + intros [H1 H2]. exists birth. split; [done|].
      Z.div_mod_to_equations. lia.
    + intros (b & [= <-] & H). Z.div_mod_to_equations. lia.
  - split; [done | by intros (? & ? & _)].
Qed.

(** A password is valid exactly when its only possible message is the
    recommendation of a special character; it has no message at all exactly
    when it is valid and has a special character. *)
Theorem validatePassword_messages (password : list N) :
  (isValid (validatePassword password) = true <->
   forall e, e ∈ errors (validatePassword password) ->
             e = "Special character recommended"%string) /\
  (errors (validatePassword password) = [] <->
   isValid (validatePassword password) = true
   /\ hasSpecialChar password = true).
Proof.
  unfold validatePassword. cbv zeta. cbn [isValid errors].
  destruct (Nat.leb_spec 8 (length password)) as [Hlen|Hlen].
  - assert (Nat.ltb (length password) 8 = false) as ->
      by (apply Nat.ltb_ge; lia).
    destruct (hasUpperCase password), (hasLowerCase password),
             (hasNumbers password), (hasSpecialChar password);
      cbn [negb andb message app]; (split; split);
      try done; try (intros [? ?]; done);
      try (intros _ e He;
           repeat (apply elem_of_cons in He as [->|He]; [done|]);
           by apply elem_of_nil in He);
      try (intros H; exfalso;
           match type of H with
           | forall e, e ∈ ?x :: _ -> _ =>
               specialize (H x (list_elem_of_here _ _)); discriminate H
           end).
  - assert (Nat.ltb (length password) 8 = true) as ->
      by (apply Nat.ltb_lt; lia).
    cbn [negb andb message app]. split; split; try done.
    + intros H. specialize (H _ (list_elem_of_here _ _)). discriminate H.
    + intros [? ?]. done.
Qed.

Section Validator.

Variable isEmail : option (list N) -> Js.completion bool.

Local Abbreviation validateProfileData :=
  (ProfileValidation.validateProfileData isEmail).

Lemma message_empty (cond : bool) (text : string) :
  message cond text = [] <-> cond = false.
Proof. by destruct cond. Qed.

(** [validateProfileData] throws on data without a trait object (when the
    e-mail check returns), instead of reporting it; on data with one, it
    reports valid exactly when there is no message, that is when both names
    have two characters, the e-mail check and [validateAge] accept, and the
    traits pass [validatePersonalityTraits]. *)
Theorem validateProfileData_report (now : Z) (data : ProfileData)
    (okEmail : bool) :
  isEmail (email data) = Js.Ok okEmail ->
  (pd_personalityTraits data = None ->
   validateProfileData now data = Js.Throw Js.TypeError) /\
  (forall traits, pd_personalityTraits data = Some traits ->
   exists r, validateProfileData now data = Js.Ok r /\
     (isValid r = true <-> errors r = []) /\
     (isValid r = true <->
      tooShort (firstName data) = false /\ tooShort (lastName data) = false /\
      okEmail = true /\ validateAge now (birthDate data) = true /\
      Validation.validatePersonalityTraits traits = true)).
Proof.
  intros He. unfold ProfileValidation.validateProfileData. cbv zeta.
  rewrite He. cbn [mbind completion_bind Js.bind]. split.
  - by intros ->.
  - intros traits ->. eexists. split; [reflexivity|]. cbn [isValid errors].
    destruct (tooShort (firstName data)), (tooShort (lastName data)), okEmail,
             (validateAge now (birthDate data)),
             (Validation.validatePersonalityTraits traits);
      cbn [negb message app length Nat.eqb]; split; split; try done;
      intros (? & ? & ? & ? & ?); done.
Qed.

End Validator.

Lemma validateProfileData_report_witness :
  validateProfileData anyEmail 1800000000000 applicant
  = Js.Throw Js.TypeError.
Proof.
  apply (validateProfileData_report anyEmail 1800000000000 applicant true);
    reflexivity.
Defined.

End ValidationFacts.

(** ** More on the blended score and discovery *)

Module BlendFacts.
Import MatchingService Vocabulary Samples.

Local Open Scope Q_scope.

(** The deal-breaker score is 100 exactly when no veto triggers and 0
    exactly when one does; it does not depend on the order of the two
    users, and two users without a [dealBreakers] object score 100. *)
Theorem checkDealBreakers_two_valued (user1 user2 : User) :
  (checkDealBreakers user1 user2 = Js.Num 100
   <-> vetoTriggered user1 user2 = false) /\
  (checkDealBreakers user1 user2 = Js.Num 0
   <-> vetoTriggered user1 user2 = true) /\
  checkDealBreakers user1 user2 = checkDealBreakers user2 user1 /\
  (dealBreakers user1 = None -> dealBreakers user2 = None ->
   checkDealBreakers user1 user2 = Js.Num 100).
Proof.
  split_and!.
  - rewrite CompatibilityFacts.checkDealBreakers_veto.
    destruct (vetoTriggered user1 user2); split; done.
  - rewrite CompatibilityFacts.checkDealBreakers_veto.
    destruct (vetoTriggered user1 user2); split; done.
  - apply CompatibilityFacts.checkDealBreakers_sym.
  - intros H1 H2. rewrite CompatibilityFacts.checkDealBreakers_veto.
    unfold vetoTriggered, vetoes. by rewrite H1, H2.
Qed.

Section Service.

Variable chatCompletion :
  option (gmap string Q) -> option (gmap string Q) -> Js.num ->
  Js.completion string.
Variable findById : string -> option User.
Variable find : Query -> list User.

Local Abbreviation collect :=
  (MatchingService.collect chatCompletion).
Local Abbreviation findMatches :=
  (MatchingService.findMatches chatCompletion findById find).

(** One candidate without a trait object fails the loop. *)
Lemma collect_throws (user : User) (pool : list User)
    (acc : list MatchEntry) :
  Exists (fun p => personalityTraits p = None) pool ->
  collect user pool acc = Js.Throw Js.TypeError.
Proof.
  intros Hbad. destruct pool as [|p pool]; [by apply Exists_nil in Hbad|].
  apply DiscoveryFacts.collect_first_candidate.
Qed.

(** [findMatches] throws when the seeker is unknown, has no preferences or
    no trait object, or when one candidate of the pool has no trait
    object: one such candidate fails the whole discovery. *)
Theorem findMatches_throws (userId : string) (limit : option Z) :
  (findById userId = None
   \/ (exists user, findById userId = Some user /\ preferences user = None)
   \/ (exists user prefs,
         findById userId = Some user /\ preferences user = Some prefs /\
         Exists (fun p => personalityTraits p = None)
           (find (mkQuery userId true (location user) (maxDistance prefs)))))
  -> findMatches userId limit = Js.Throw Js.TypeError.
Proof.
  unfold MatchingService.findMatches. cbv zeta.
  intros [-> | [(user & -> & ->) | (user & prefs & -> & -> & Hbad)]];
    [done | done |].
  by rewrite collect_throws.
Qed.

End Service.

Lemma findMatches_throws_witness :
  findMatches noCompletion directory pool "7" None = Js.Throw Js.TypeError.
Proof. apply findMatches_throws. by left. Defined.

End BlendFacts.

(** ** The response of the handler *)

Module ResponseFacts.
Import MatchRoute Vocabulary Samples.

Section Handler.

Variable calculateCompatibility :
  string -> string -> Js.completion (Js.value MatchingService.Compatibility).
Variable generateMatchAnalysis : string -> string -> Js.completion string.

Local Abbreviation step :=
  (MatchRoute.step calculateCompatibility generateMatchAnalysis).
Local Abbreviation handle :=
  (MatchRoute.handle calculateCompatibility generateMatchAnalysis).

Lemma step_AfterSave_response (req : Request) (m : Match) (db db' : Db)
    (matched : bool) (id : nat) :
  Consistent db -> m ∈ matches db ->
  step (AfterSave req m) db = (Finished (Json matched id), db') ->
  exists m', m' ∈ matches db' /\ match_id m' = id /\
             user1 m' = user1 m /\ user2 m' = user2 m /\
             (matched = true <-> status m' = mutual).
Proof.
  intros Hc Hin. cbn [MatchRoute.step].
  destruct (decide (status m = mutual)) as [Hm|Hm].
  - rewrite (bool_decide_eq_true_2 _ Hm).
    destruct (generateMatchAnalysis _ _) as [text|e]; [|done].
    intros [= <- <- <-].
    destruct (HandlerFacts.save_existing m (setAiAnalysis m (Some text)) db)
      as (_ & Hin' & _); [done..|].
    exists (setAiAnalysis m (Some text)). by split_and!.
  - rewrite (bool_decide_eq_false_2 _ Hm). intros [= <- <- <-].
    exists m. by split_and!.
Qed.

(** When the handler answers with a match flag, the collection holds the
    record of the pair under the identifier of the answer, and the flag is
    set exactly when that record is [mutual]. *)
Theorem handle_response (req : Request) (db db' : Db) (matched : bool)
    (id : nat) :
  Consistent db ->
  handle req db = (Finished (Json matched id), db') ->
  exists m, m ∈ matches db' /\ match_id m = id /\
            isPair (userId req) (targetUserId req) m = true /\
            (matched = true <-> status m = mutual).
Proof.
  intros Hc. unfold MatchRoute.handle. cbn [MatchRoute.step].
  destruct (String.eqb (userId req) (targetUserId req)); [done|].
  cbn [MatchRoute.step].
  destruct (findOne (userId req) (targetUserId req) db) as [m0|] eqn:F.
  - unfold findOne in F. apply List.find_some in F as [Hin Hpair].
    apply list_elem_of_In in Hin.
    destruct (HandlerFacts.applyAction_keeps m0 (userId req) (action req))
      as (Hid & H1 & H2).
    destruct (HandlerFacts.save_existing m0
                (applyAction m0 (userId req) (action req)) db)
      as (Hc' & Hin' & _); [done..|].
    intros H. apply step_AfterSave_response in H
      as (m' & Hm' & Hid' & H1' & H2' & Hflag); [|done..].
    exists m'. split_and!; [done..| |done].
    rewrite <- Hpair. apply HandlerFacts.isPair_users; congruence.
  - destruct (calculateCompatibility _ _) as [score|e];
      cbn [mbind completion_bind Js.bind]; [|done].
    set (m0 := newMatch (nextId db) (userId req) (targetUserId req) score).
    destruct (HandlerFacts.applyAction_keeps m0 (userId req) (action req))
      as (Hid & H1 & H2).
    destruct (HandlerFacts.save_new
                (applyAction m0 (userId req) (action req)) db)
      as (Hc' & Hin' & _); [done | by rewrite Hid | |].
    { rewrite H1, H2. unfold findOne in F. unfold pairCount.
      cbn [m0 newMatch user1 user2].
      assert (List.filter (isPair (userId req) (targetUserId req))
                (matches db) = []) as ->; [|done].
      apply ListFacts.filter_none, Forall_forall. intros d Hd.
      apply list_elem_of_In in Hd. by apply (List.find_none _ _ F). }
    intros H. apply step_AfterSave_response in H
      as (m' & Hm' & Hid' & H1' & H2' & Hflag); [|done..].
    exists m'. split_and!; [done..| |done].
    unfold isPair. rewrite H1', H2', H1, H2. cbn [m0 newMatch user1 user2].
    by rewrite !String.eqb_refl.
Qed.

End Handler.

Lemma handle_response_witness :
  exists m,
    m ∈ matches (handle (scoreOfIds noCompletion) analysisOfIds superLikeAB
                   oneRecord).2 /\
    match_id m = 0%nat /\ isPair "A" "B" m = true /\
    (false = true <-> status m = mutual).
Proof.
  apply (handle_response (scoreOfIds noCompletion) analysisOfIds superLikeAB
           oneRecord
           (handle (scoreOfIds noCompletion) analysisOfIds superLikeAB
              oneRecord).2 false 0);
    [apply HandlerFacts.oneRecord_consistent | reflexivity].
Defined.

Lemma handle_keeps_consistent_witness :
  Consistent
    (handle (scoreOfIds noCompletion) analysisOfIds likeAB oneRecord).2.
Proof.
  apply HandlerFacts.handle_keeps_consistent,
    HandlerFacts.oneRecord_consistent.
Defined.

End ResponseFacts.

(** ** Instances *)

Module Instances.
Import Samples.

Local Open Scope Q_scope.

(** Absent, 0 and 50 are one value to [calculatePersonalityCompatibility]. *)
Theorem calculatePersonalityCompatibility_falsy (t1 t2 : gmap string Q)
    (trait : string) :
  t1 !! trait = None ->
  AIService.calculatePersonalityCompatibility (Some (<[trait := 0]> t1))
    (Some t2)
  = AIService.calculatePersonalityCompatibility (Some t1) (Some t2) /\
  AIService.calculatePersonalityCompatibility (Some (<[trait := 50]> t1))
    (Some t2)
  = AIService.calculatePersonalityCompatibility (Some t1) (Some t2).
Proof.
  intros Hnone.
  rewrite ScorerFacts.calculatePersonalityCompatibility_zero.
  by rewrite TraitFacts.calculatePersonalityCompatibility_default.
Qed.

Lemma calculatePersonalityCompatibility_falsy_witness :
  AIService.calculatePersonalityCompatibility
    (Some (<["emotionalIntelligence"%string := 0]> bigFive)) (Some sixTraits)
  = AIService.calculatePersonalityCompatibility (Some bigFive)
      (Some sixTraits).
Proof.
  apply (calculatePersonalityCompatibility_falsy bigFive sixTraits
           "emotionalIntelligence"). reflexivity.
Defined.

Lemma like_like_commutes_witness :
  MatchRoute.status
    (MatchRoute.applyAction
       (MatchRoute.applyAction
          (MatchRoute.newMatch 0 "A" "B" (Js.Number (Js.Num 85))) "B"
          MatchRoute.like)
       "A" MatchRoute.like)
  = MatchRoute.mutual.
Proof.
  apply (StateMachineFacts.like_like_commutes 0 "A" "B"
           (Js.Number (Js.Num 85))).
  discriminate.
Defined.

Lemma handle_analysis_failure_witness :
  MatchRoute.handle (MatchRoute.scoreOfIds noCompletion)
    MatchRoute.analysisOfIds likeAB oneRecord
  = (MatchRoute.Finished MatchRoute.Status500,
     MatchRoute.save (MatchRoute.applyAction liked_by_second "A"
                        MatchRoute.like) oneRecord).
Proof.
  apply (ActionFacts.handle_analysis_failure
           (MatchRoute.scoreOfIds noCompletion) MatchRoute.analysisOfIds
           likeAB oneRecord liked_by_second Js.TypeError);
    [discriminate | reflexivity | reflexivity | reflexivity].
Defined.

Lemma limiter_other_key_witness :
  (Auth.limiter 3 1000 (<["b"%string := [5%Z]]> ∅)
     (Auth.mkRequest "a" None) 10).2 !! "b"%string = Some [5%Z].
Proof.
  rewrite (RateLimiterFacts.limiter_other_key 3 1000
             (<["b"%string := [5%Z]]> ∅) (Auth.mkRequest "a" None) 10 "b");
    [reflexivity | discriminate].
Defined.

Lemma serve_bounded_witness :
  (Z.of_nat (length [0; 10; 500]%Z) <= 3)%Z.
Proof.
  apply (SlidingWindowFacts.serve_bounded 3 1000 ∅
           [(Auth.mkRequest "a" None, 0%Z); (Auth.mkRequest "a" None, 10%Z);
            (Auth.mkRequest "a" None, 500%Z);
            (Auth.mkRequest "a" None, 600%Z)]) with (key := "a"%string).
  - intros key l H. rewrite lookup_empty in H. discriminate H.
  - vm_compute. reflexivity.
Defined.

Lemma analyzePersonalityTraits_range_witness :
  exists q, MatchingService.analyzePersonalityTraits (Some sixTraits)
              (Some sixTraits) = Js.Ok (Js.Num q) /\ 0 <= q <= 100.
Proof.
  apply TraitFacts.analyzePersonalityTraits_range. intros trait Hin.
  unfold MatchingService.weights in Hin. cbn [fmap list_fmap fst] in Hin.
  repeat (apply elem_of_cons in Hin as [->|Hin];
          [split; vm_compute; eexists; reflexivity|]).
  by apply elem_of_nil in Hin.
Defined.

Lemma analyzePersonalityTraits_missing_witness :
  MatchingService.analyzePersonalityTraits (Some sixTraits) (Some bigFive)
  = Js.Ok Js.NaN.
Proof.
  apply (TraitFacts.analyzePersonalityTraits_missing sixTraits bigFive
           "emotionalIntelligence").
  - unfold MatchingService.weights. cbn [fmap list_fmap fst].
    do 5 apply list_elem_of_further. apply list_elem_of_here.
  - right. reflexivity.
Defined.

End Instances.
